(** * imagegen: the page-enhancement script [static/script.js]

    A shallow embedding of the five binders of the script
    ([initAutoSubmit], [initLoadingStates], [initConfirmations],
    [initThemeToggle], [initImageUpload]) and of the listeners they
    register, over an explicit model of the part of the browser the
    script touches: the elements of the document, the class list of the
    body, local storage, the listener table and the trace of calls made
    to the host ([alert], [confirm], [fetch], [form.submit()], ...). *)

From Stdlib Require Import DecimalString.
From stdpp Require Import base decidable countable functions strings list gmap.

#[local] Set Warnings "-clear-no-such-hyp,-register-all".

Open Scope N_scope.

(** ** Strings

    A JavaScript string is a sequence of UTF-16 code units. *)

Abbreviation jsstring := (list N).

Definition code_of_ascii (c : Ascii.ascii) : N := Ascii.N_of_ascii c.

Fixpoint str (s : String.string) : jsstring :=
  match s with
  | String.EmptyString => []
  | String.String c r => code_of_ascii c :: str r
  end.
Arguments str s%_string : simpl never.

(** [WhiteSpace] and [LineTerminator] code points of ECMAScript, the
    ones [String.prototype.trim] strips. *)
Definition is_js_whitespace (c : N) : bool :=
  (9 <=? c) && (c <=? 13)
  || (c =? 32) || (c =? 160) || (c =? 5760)
  || (8192 <=? c) && (c <=? 8202)
  || (c =? 8232) || (c =? 8233) || (c =? 8239) || (c =? 8287)
  || (c =? 12288) || (c =? 65279).

Fixpoint trimStart (s : jsstring) : jsstring :=
  match s with
  | [] => []
  | c :: r => if is_js_whitespace c then trimStart r else s
  end.

Definition trimEnd (s : jsstring) : jsstring := rev (trimStart (rev s)).

(** [s.trim()] *)
Definition trim (s : jsstring) : jsstring := trimStart (trimEnd s).

(** ['\n'] *)
Definition newline : jsstring := [10].

(** Truthiness of a string: only the empty string is falsy. *)
Definition str_truthy (s : jsstring) : bool :=
  match s with [] => false | _ => true end.

(** [`${n}`] for a non-negative integer number. *)
Definition N_to_jsstring (n : N) : jsstring :=
  str (NilZero.string_of_uint (N.to_uint n)).

(** [haystack.includes(needle)] *)
Fixpoint is_prefix (p s : jsstring) : bool :=
  match p, s with
  | [], _ => true
  | a :: p', b :: s' => (a =? b) && is_prefix p' s'
  | _ :: _, [] => false
  end.

Fixpoint includes (needle haystack : jsstring) : bool :=
  is_prefix needle haystack
  || match haystack with
     | [] => false
     | _ :: r => includes needle r
     end.

(** ** Elements *)

Definition node := nat.

Record file := File { file_name : jsstring; file_bytes : list N }.

(** The content of an element, as [innerHTML] and [textContent] show
    it: text, and elements with their attributes and their own
    content. *)
Inductive child :=
  | TextNode (data : jsstring)
  | ElementNode (name : jsstring) (attrs : list (jsstring * jsstring))
      (children : list child).

(** The properties of an element the script reads or writes.  [el_tag]
    is the local name in lower case; [el_files] is [None] (JavaScript
    [null]) on anything that is not a file input; [el_form] is the form
    owner; [el_childNodes] is the content, of which [innerHTML] and
    [textContent] are two views. *)
Record element := Element {
  el_tag : jsstring;
  el_id : option jsstring;
  el_classList : gset jsstring;
  el_attributes : gmap jsstring jsstring;
  el_value : jsstring;
  el_childNodes : list child;
  el_disabled : bool;
  el_style_width : jsstring;
  el_offsetWidth : N;
  el_form : option node;
  el_files : option (list file)
}.

Definition set_classList (c : gset jsstring) (e : element) : element :=
  Element (el_tag e) (el_id e) c (el_attributes e) (el_value e)
    (el_childNodes e) (el_disabled e) (el_style_width e)
    (el_offsetWidth e) (el_form e) (el_files e).

Definition set_childNodes (c : list child) (e : element) : element :=
  Element (el_tag e) (el_id e) (el_classList e) (el_attributes e) (el_value e)
    c (el_disabled e) (el_style_width e)
    (el_offsetWidth e) (el_form e) (el_files e).

(** *** [textContent]

    Reading gives the text of the content, in tree order; writing
    replaces the content by one text node, or by nothing when the
    string is empty. *)
Fixpoint text_of (c : child) : jsstring :=
  match c with
  | TextNode data => data
  | ElementNode _ _ children => concat (map text_of children)
  end.

Definition el_textContent (e : element) : jsstring :=
  concat (map text_of (el_childNodes e)).

Definition set_textContent (s : jsstring) (e : element) : element :=
  set_childNodes (match s with [] => [] | _ => [TextNode s] end) e.

(** *** Reading [innerHTML]

    The fragment serialisation of the HTML standard for text and
    elements.  Text is escaped, except inside the elements whose text
    is written out as it is; a void element has no content and no end
    tag. *)
Definition escape (attribute_mode : bool) (s : jsstring) : jsstring :=
  flat_map
    (fun c =>
       if c =? 38 then str "&amp;"
       else if c =? 160 then str "&nbsp;"
       else if c =? 60 then str "&lt;"
       else if c =? 62 then str "&gt;"
       else if attribute_mode && (c =? 34) then str "&quot;"
       else [c])
    s.

Definition void_elements : list jsstring :=
  map str ["area"; "base"; "basefont"; "bgsound"; "br"; "col"; "embed";
           "frame"; "hr"; "img"; "input"; "keygen"; "link"; "meta"; "param";
           "source"; "track"; "wbr"]%string.

Definition literal_text_elements : list jsstring :=
  map str ["style"; "script"; "xmp"; "iframe"; "noembed"; "noframes";
           "plaintext"; "noscript"]%string.

Definition is_void (name : jsstring) : bool := bool_decide (name ∈ void_elements).

Definition has_literal_text (name : jsstring) : bool :=
  bool_decide (name ∈ literal_text_elements).

Definition serialize_attr (a : jsstring * jsstring) : jsstring :=
  str " " ++ fst a ++ str "=" ++ [34] ++ escape true (snd a) ++ [34].

Fixpoint serialize (literal : bool) (c : child) : jsstring :=
  match c with
  | TextNode data => if literal then data else escape false data
  | ElementNode name attrs children =>
      str "<" ++ name ++ flat_map serialize_attr attrs ++ str ">"
      ++ (if is_void name then []
          else concat (map (serialize (has_literal_text name)) children)
               ++ str "</" ++ name ++ str ">")
  end.

Definition el_innerHTML (e : element) : jsstring :=
  concat (map (serialize (has_literal_text (el_tag e))) (el_childNodes e)).

(** *** Writing [innerHTML]

    The assigned string goes through the HTML parser, and what it
    builds replaces the content.  The part of the parser modelled is
    the one that markup made of text, start tags with attributes and
    end tags goes through: the tokenizer states from the data state to
    the self-closing start tag state, and the insertion of characters
    and elements on a stack of open elements.  Character references
    are not decoded, comments and declarations are dropped, and no tag
    is implied or reordered. *)
Inductive token :=
  | Character (c : N)
  | StartTag (name : jsstring) (attrs : list (jsstring * jsstring))
  | EndTag (name : jsstring).

Record tag := Tag {
  tag_end : bool;
  tag_name : jsstring;
  tag_attrs : list (jsstring * jsstring)
}.

Inductive tokenizer :=
  | Data
  | TagOpen
  | EndTagOpen
  | BogusComment
  | TagName (t : tag)
  | BeforeAttributeName (t : tag)
  | AttributeName (t : tag) (name : jsstring)
  | AfterAttributeName (t : tag) (name : jsstring)
  | BeforeAttributeValue (t : tag) (name : jsstring)
  | AttributeValue (quote : option N) (t : tag) (name value : jsstring)
  | AfterAttributeValueQuoted (t : tag)
  | SelfClosingStartTag (t : tag).

(** Tab, line feed, form feed and space. *)
Definition is_html_whitespace (c : N) : bool :=
  (c =? 9) || (c =? 10) || (c =? 12) || (c =? 32).

Definition is_ascii_alpha (c : N) : bool :=
  (65 <=? c) && (c <=? 90) || (97 <=? c) && (c <=? 122).

Definition ascii_lower (c : N) : N :=
  if (65 <=? c) && (c <=? 90) then c + 32 else c.

Definition extend_name (t : tag) (c : N) : tag :=
  Tag (tag_end t) (tag_name t ++ [ascii_lower c]) (tag_attrs t).

(** An attribute whose name the tag already has is dropped. *)
Definition add_attr (t : tag) (name value : jsstring) : tag :=
  if bool_decide (name ∈ map fst (tag_attrs t)) then t
  else Tag (tag_end t) (tag_name t) (tag_attrs t ++ [(name, value)]).

Definition emit (t : tag) : token :=
  if tag_end t then EndTag (tag_name t) else StartTag (tag_name t) (tag_attrs t).

Definition after_attribute_name (t : tag) (name : jsstring) (c : N) :
    tokenizer * list token :=
  if is_html_whitespace c then (AfterAttributeName t name, [])
  else if c =? 47 then (SelfClosingStartTag (add_attr t name []), [])
  else if c =? 61 then (BeforeAttributeValue t name, [])
  else if c =? 62 then (Data, [emit (add_attr t name [])])
  else (AttributeName (add_attr t name []) [ascii_lower c], []).

Definition attribute_name (t : tag) (name : jsstring) (c : N) :
    tokenizer * list token :=
  if is_html_whitespace c || (c =? 47) || (c =? 62) then after_attribute_name t name c
  else if c =? 61 then (BeforeAttributeValue t name, [])
  else (AttributeName t (name ++ [ascii_lower c]), []).

Definition before_attribute_name (t : tag) (c : N) : tokenizer * list token :=
  if is_html_whitespace c then (BeforeAttributeName t, [])
  else if c =? 47 then (SelfClosingStartTag t, [])
  else if c =? 62 then (Data, [emit t])
  else if c =? 61 then (AttributeName t [c], [])
  else attribute_name t [] c.

Definition tokenizer_step (st : tokenizer) (c : N) : tokenizer * list token :=
  match st with
  | Data => if c =? 60 then (TagOpen, []) else (Data, [Character c])
  | TagOpen =>
      if c =? 47 then (EndTagOpen, [])
      else if is_ascii_alpha c then (TagName (Tag false [ascii_lower c] []), [])
      else if (c =? 33) || (c =? 63) then (BogusComment, [])
      else if c =? 60 then (TagOpen, [Character 60])
      else (Data, [Character 60; Character c])
  | EndTagOpen =>
      if is_ascii_alpha c then (TagName (Tag true [ascii_lower c] []), [])
      else if c =? 62 then (Data, [])
      else (BogusComment, [])
  | BogusComment => if c =? 62 then (Data, []) else (BogusComment, [])
  | TagName t =>
      if is_html_whitespace c then (BeforeAttributeName t, [])
      else if c =? 47 then (SelfClosingStartTag t, [])
      else if c =? 62 then (Data, [emit t])
      else (TagName (extend_name t c), [])
  | BeforeAttributeName t => before_attribute_name t c
  | AttributeName t name => attribute_name t name c
  | AfterAttributeName t name => after_attribute_name t name c
  | BeforeAttributeValue t name =>
      if is_html_whitespace c then (BeforeAttributeValue t name, [])
      else if (c =? 34) || (c =? 39) then (AttributeValue (Some c) t name [], [])
      else if c =? 62 then (Data, [emit (add_attr t name [])])
      else (AttributeValue None t name [c], [])
  | AttributeValue (Some q) t name value =>
      if c =? q then (AfterAttributeValueQuoted (add_attr t name value), [])
      else (AttributeValue (Some q) t name (value ++ [c]), [])
  | AttributeValue None t name value =>
      if is_html_whitespace c then (BeforeAttributeName (add_attr t name value), [])
      else if c =? 62 then (Data, [emit (add_attr t name value)])
      else (AttributeValue None t name (value ++ [c]), [])
  | AfterAttributeValueQuoted t => before_attribute_name t c
  | SelfClosingStartTag t => before_attribute_name t c
  end.

(** At the end of the input an unfinished tag is dropped. *)
Definition tokenizer_end (st : tokenizer) : list token :=
  match st with
  | TagOpen => [Character 60]
  | EndTagOpen => [Character 60; Character 47]
  | _ => []
  end.

Fixpoint tokenize (st : tokenizer) (s : jsstring) : list token :=
  match s with
  | [] => tokenizer_end st
  | c :: r => let step := tokenizer_step st c in snd step ++ tokenize (fst step) r
  end.

(** An element still open, with the children it has so far, the last
    one first.  The stack of open elements has the current node first
    and ends with the element whose content is being built. *)
Record open_element := Open {
  open_name : jsstring;
  open_attrs : list (jsstring * jsstring);
  open_children : list child
}.

Definition insert_child (c : child) (stack : list open_element) : list open_element :=
  match stack with
  | o :: rest => Open (open_name o) (open_attrs o) (c :: open_children o) :: rest
  | [] => []
  end.

(** A character joins the text node before it, when there is one. *)
Definition insert_character (c : N) (stack : list open_element) : list open_element :=
  match stack with
  | o :: rest =>
      match open_children o with
      | TextNode data :: before =>
          Open (open_name o) (open_attrs o) (TextNode (data ++ [c]) :: before) :: rest
      | before =>
          Open (open_name o) (open_attrs o) (TextNode [c] :: before) :: rest
      end
  | [] => []
  end.

Definition close_current (stack : list open_element) : list open_element :=
  match stack with
  | o :: (_ :: _) as rest =>
      insert_child (ElementNode (open_name o) (open_attrs o) (rev (open_children o))) rest
  | _ => stack
  end.

(** The place in the stack of the innermost open element of that
    name, the element being filled not counted. *)
Fixpoint open_index (name : jsstring) (stack : list open_element) : option nat :=
  match stack with
  | o :: (_ :: _) as rest =>
      if bool_decide (open_name o = name) then Some 0%nat
      else S <$> open_index name rest
  | _ => None
  end.

Definition tree_step (stack : list open_element) (t : token) : list open_element :=
  match t with
  | Character c => insert_character c stack
  | StartTag name attrs =>
      if is_void name then insert_child (ElementNode name attrs []) stack
      else Open name attrs [] :: stack
  | EndTag name =>
      match open_index name stack with
      | Some i => Nat.iter (S i) close_current stack
      | None => stack
      end
  end.

Definition built (stack : list open_element) : list child :=
  match Nat.iter (length stack) close_current stack with
  | o :: _ => rev (open_children o)
  | [] => []
  end.

Definition parse_fragment (markup : jsstring) : list child :=
  built (foldl tree_step [Open [] [] []] (tokenize Data markup)).

Definition set_innerHTML (markup : jsstring) (e : element) : element :=
  set_childNodes (parse_fragment markup) e.

Definition set_disabled (b : bool) (e : element) : element :=
  Element (el_tag e) (el_id e) (el_classList e) (el_attributes e) (el_value e)
    (el_childNodes e) b (el_style_width e)
    (el_offsetWidth e) (el_form e) (el_files e).

Definition set_style_width (s : jsstring) (e : element) : element :=
  Element (el_tag e) (el_id e) (el_classList e) (el_attributes e) (el_value e)
    (el_childNodes e) (el_disabled e) s
    (el_offsetWidth e) (el_form e) (el_files e).

(** Assigning [value]: on a file input the only assignment the script
    makes is the empty string, which empties the selection; elsewhere
    the string is stored. *)
Definition set_value (s : jsstring) (e : element) : element :=
  Element (el_tag e) (el_id e) (el_classList e) (el_attributes e) s
    (el_childNodes e) (el_disabled e) (el_style_width e)
    (el_offsetWidth e) (el_form e)
    (match el_files e with Some _ => Some [] | None => None end).

(** ** Events, listeners, host calls *)

Inductive event_type := Click | Change | Submit.

Global Instance event_type_eq_dec : EqDecision event_type.
Proof. solve_decision. Defined.

Record event := Event {
  ev_type : event_type;
  ev_target : node;
  ev_submitter : option node;
  ev_defaultPrevented : bool
}.

(** [e.preventDefault()] (click events are cancelable) *)
Definition preventDefault (e : event) : event :=
  Event (ev_type e) (ev_target e) (ev_submitter e) true.

(** The closures the script registers, each with the variables it
    captures. *)
Inductive handler :=
  | ThemeClick
  | AutoSubmitChange
  | StyleChange
  | MainFormSubmit
  | ConfirmClick (btn : node)
  | UploadBtnClick (fileInput : node)
  | FileInputChange (uploadBtn fileInput urlsTextarea : node).

Global Instance handler_eq_dec : EqDecision handler.
Proof. solve_decision. Defined.

(** What can be thrown.  The messages of the two [TypeError]s, the one
    raised by reading a property of [null] and the one raised when an
    object cannot be converted to a primitive value, are chosen by the
    engine. *)
Inductive exn :=
  | NullPropertyTypeError (prop : jsstring)
  | ToPrimitiveTypeError
  | HostError (message : jsstring)
  | ScriptError (message : jsstring).

(** Calls to the host, in the order they are made; [Uncaught] is the
    report of an exception that escaped a listener, and [Activation]
    the browser carrying out the activation behaviour of an element
    the script has clicked (a submit button submits its form). *)
Inductive effect :=
  | Alert (message : jsstring)
  | Confirm (message : jsstring) (answer : bool)
  | ConsoleError (label : jsstring) (err : exn)
  | FormSubmit (form : node)
  | ElementClick (target : node)
  | Fetch (url method : jsstring) (body : list (jsstring * file))
  | Uncaught (err : exn)
  | Activation (target : node).

(** The page.  [heap] gives every element object its properties (a
    reference held by a closure never dangles); [doc] lists the elements
    that are in the document, in tree order; [ancestors] gives each
    element its chain of ancestors, the parent first, which is the way
    an event fired on it climbs; [matchMedia_light] is
    [window.matchMedia('(prefers-color-scheme: light)').matches]. *)
Record world := World {
  heap : node -> element;
  doc : list node;
  ancestors : node -> list node;
  body_classList : gset jsstring;
  localStorage : gmap jsstring jsstring;
  matchMedia_light : bool;
  listeners : list (node * event_type * handler);
  trace : list effect
}.

Definition set_heap (h : node -> element) (w : world) : world :=
  World h (doc w) (ancestors w) (body_classList w) (localStorage w) (matchMedia_light w)
    (listeners w) (trace w).

Definition set_body_classList (c : gset jsstring) (w : world) : world :=
  World (heap w) (doc w) (ancestors w) c (localStorage w) (matchMedia_light w)
    (listeners w) (trace w).

Definition set_localStorage (m : gmap jsstring jsstring) (w : world) : world :=
  World (heap w) (doc w) (ancestors w) (body_classList w) m (matchMedia_light w)
    (listeners w) (trace w).

Definition set_listeners (l : list (node * event_type * handler)) (w : world) : world :=
  World (heap w) (doc w) (ancestors w) (body_classList w) (localStorage w)
    (matchMedia_light w)
    l (trace w).

Definition log (x : effect) (w : world) : world :=
  World (heap w) (doc w) (ancestors w) (body_classList w) (localStorage w)
    (matchMedia_light w)
    (listeners w) (trace w ++ [x]).

(** A write to a property of the element [n]. *)
Definition update (n : node) (f : element -> element) (w : world) : world :=
  set_heap (alter f n (heap w)) w.

(** [document.getElementById(i)]: the first element in tree order whose
    id is [i], or [null]. *)
Definition getElementById (w : world) (i : jsstring) : option node :=
  List.find (fun n => bool_decide (el_id (heap w n) = Some i)) (doc w).

(** [document.querySelectorAll('button.danger')] *)
Definition querySelectorAll_button_danger (w : world) : list node :=
  List.filter
    (fun n => bool_decide (el_tag (heap w n) = str "button")
              && bool_decide (str "danger" ∈ el_classList (heap w n)))
    (doc w).

(** [target.addEventListener(type, h)] *)
Definition addEventListener (n : node) (t : event_type) (h : handler) (w : world) : world :=
  set_listeners (listeners w ++ [(n, t, h)]) w.

(** ** The listeners *)

Definition light_theme : jsstring := str "light-theme".

(** [classList.toggle(c)] *)
Definition classList_toggle (c : jsstring) (s : gset jsstring) : gset jsstring :=
  if decide (c ∈ s) then s ∖ {[c]} else s ∪ {[c]}.

(** The click listener of the theme toggle (lines 20-24). *)
Definition themeClick (w : world) : world :=
  let w := set_body_classList (classList_toggle light_theme (body_classList w)) w in
  let isLight := bool_decide (light_theme ∈ body_classList w) in
  set_localStorage
    (<[str "theme" := if isLight then str "light" else str "dark"]> (localStorage w)) w.

(** The change listener of an auto-submit field (lines 41-43):
    [e.target.form.submit()]; with no form owner, [form] is [null]. *)
Definition autoSubmitChange (e : event) (w : world) : world * option exn :=
  match el_form (heap w (ev_target e)) with
  | Some f => (log (FormSubmit f) w, None)
  | None => (w, Some (NullPropertyTypeError (str "submit")))
  end.

Definition generating_html : jsstring :=
  str "<span>Generating...</span> <span class=" ++ [34] ++ str "spinner"
    ++ [34] ++ str "></span>".

(** The submit listener of the main form (lines 65-83). *)
Definition mainFormSubmit (e : event) (w : world) : world :=
  match ev_submitter e with
  | Some submitter =>
      if bool_decide (el_value (heap w submitter) = str "run") then
        let originalText := el_innerHTML (heap w submitter) in
        let originalWidth := el_offsetWidth (heap w submitter) in
        let w := update submitter
                   (set_style_width (N_to_jsstring originalWidth ++ str "px")) w in
        let w := update submitter (set_innerHTML generating_html) w in
        update submitter
          (fun el => set_classList (el_classList el ∪ {[str "loading"]}) el) w
      else w
  | None => w
  end.

Definition generic_confirm : jsstring := str "Are you sure you want to proceed?".

(** [btn.getAttribute('data-confirm') || '...']: [null] and the empty
    string are both falsy. *)
Definition confirm_message (el : element) : jsstring :=
  match el_attributes el !! str "data-confirm" with
  | Some m => if str_truthy m then m else generic_confirm
  | None => generic_confirm
  end.

(** The click listener of a danger button (lines 94-99); [user] is what
    the user answers to the prompt. *)
Definition confirmClick (user : jsstring -> bool) (btn : node) (e : event) (w : world)
  : world * event :=
  let message := confirm_message (heap w btn) in
  let answer := user message in
  let w := log (Confirm message answer) w in
  if negb answer then (w, preventDefault e) else (w, e).

(** The variables a suspended run of the async change listener holds. *)
Record upload_frame := Frame {
  uploadBtn : node;
  fileInput : node;
  urlsTextarea : node;
  originalText : jsstring
}.

(** The change listener of the file input up to its first [await]
    (lines 117-133). *)
Definition fileInputChange_begin (btn fi ta : node) (w : world)
  : world * option upload_frame :=
  match el_files (heap w fi) with
  | None | Some [] => (w, None)
  | Some (file :: _) =>
      let formData := [(str "file", file)] in
      let originalText := el_textContent (heap w btn) in
      let w := update btn (set_textContent (str "Uploading...")) w in
      let w := update btn (set_disabled true) w in
      let w := log (Fetch (str "/api/upload") (str "POST") formData) w in
      (w, Some (Frame btn fi ta originalText))
  end.

(** The world at the moment the response body has been read, when the
    listener resumes for the last time. *)
Definition upload_at_body (during_fetch during_body : world -> world)
    (btn fi ta : node) (w : world) : world :=
  during_body (during_fetch (fst (fileInputChange_begin btn fi ta w))).

(** What running one listener yields: the world and the event after
    it, the exception it threw if any, and the uploads it left waiting. *)
Record outcome := Outcome {
  out_world : world;
  out_event : event;
  out_thrown : option exn;
  out_pending : list upload_frame
}.

(** ** Dispatch

    An event fired on an element reaches the element and then climbs
    through its ancestors (the script registers every listener without
    the capture flag, and never stops the propagation).  On each element
    the listeners registered for the event's type run in the order they
    were added; an exception a listener throws is reported and does not
    stop the others. *)

Definition handlers_for (n : node) (t : event_type)
    (regs : list (node * event_type * handler)) : list handler :=
  map snd
    (List.filter (fun l => bool_decide (fst (fst l) = n ∧ snd (fst l) = t)) regs).

Definition listeners_for (n : node) (t : event_type) (w : world) : list handler :=
  handlers_for n t (listeners w).

Definition click_on (n : node) : event := Event Click n None false.
Definition change_on (n : node) : event := Event Change n None false.

(** One listener.  [style] is the body of the style dropdown's
    listener, which depends on whether a click on the append button is
    already in progress (see [styleChange] below).  [fileInput.click()]
    is the last thing the upload button's listener does.  The file
    input is an [input] element that stands beside the upload button
    (the content of the button is replaced during an upload): the
    script registers no click listener on it or around it, so nothing
    of the script runs inside the call and nothing prevents the click;
    the entry [ElementClick] stands for the call and the file dialog
    it opens. *)
Definition run_handler_with (style : world -> world * list upload_frame)
    (user : jsstring -> bool) (h : handler) (e : event) (w : world) : outcome :=
  match h with
  | ThemeClick => Outcome (themeClick w) e None []
  | AutoSubmitChange =>
      let r := autoSubmitChange e w in Outcome (fst r) e (snd r) []
  | StyleChange => let r := style w in Outcome (fst r) e None (snd r)
  | MainFormSubmit => Outcome (mainFormSubmit e w) e None []
  | ConfirmClick btn =>
      let r := confirmClick user btn e w in Outcome (fst r) (snd r) None []
  | UploadBtnClick fi => Outcome (log (ElementClick fi) w) e None []
  | FileInputChange btn fi ta =>
      let r := fileInputChange_begin btn fi ta w in
      Outcome (fst r) e None (option_list (snd r))
  end.

(** The listeners of one element. *)
Fixpoint run_listeners_with (style : world -> world * list upload_frame)
    (user : jsstring -> bool) (hs : list handler) (e : event)
    (w : world) (pending : list upload_frame) : world * event * list upload_frame :=
  match hs with
  | [] => (w, e, pending)
  | h :: r =>
      let o := run_handler_with style user h e w in
      let w' := match out_thrown o with
                | Some x => log (Uncaught x) (out_world o)
                | None => out_world o
                end in
      run_listeners_with style user r (out_event o) w' (pending ++ out_pending o)
  end.

(** The listeners of the elements of a path, one element after the
    other. *)
Fixpoint run_path_with (style : world -> world * list upload_frame)
    (user : jsstring -> bool) (path : list node) (e : event)
    (w : world) (pending : list upload_frame) : world * event * list upload_frame :=
  match path with
  | [] => (w, e, pending)
  | m :: rest =>
      let r := run_listeners_with style user (listeners_for m (ev_type e) w) e w pending in
      run_path_with style user rest (snd (fst r)) (fst (fst r)) (snd r)
  end.

(** [appendBtn.click()] called while a click on the append button is
    in progress: the call is made and returns at once. *)
Definition styleChange_busy (w : world) : world * list upload_frame :=
  match getElementById w (str "append-style-button") with
  | Some appendBtn => (log (ElementClick appendBtn) w, [])
  | None => (w, [])
  end.

(** [b.click()] on the append button [b].  On a disabled control the
    call does nothing.  Otherwise a click event is fired on [b] at once,
    inside the call: the script's click listeners on [b] and on its
    ancestors run (a listener of the style dropdown among them would
    find the click in progress), and when none of them has prevented
    the click the browser activates the button.  What the activation
    does, such as submitting the form of a submit button, is the
    browser's, as is the navigation after [form.submit()]; an event it
    fires arrives as a further event. *)
Definition click_appendBtn (user : jsstring -> bool) (b : node) (w : world)
  : world * list upload_frame :=
  let w := log (ElementClick b) w in
  if el_disabled (heap w b) then (w, [])
  else
    let r := run_path_with styleChange_busy user (b :: ancestors w b)
               (click_on b) w [] in
    (if ev_defaultPrevented (snd (fst r)) then fst (fst r)
     else log (Activation b) (fst (fst r)),
     snd r).

(** The change listener of the style dropdown (lines 50-54). *)
Definition styleChange (user : jsstring -> bool) (w : world)
  : world * list upload_frame :=
  match getElementById w (str "append-style-button") with
  | Some appendBtn => click_appendBtn user appendBtn w
  | None => (w, [])
  end.

Definition run_handler (user : jsstring -> bool) (h : handler) (e : event) (w : world)
  : outcome :=
  run_handler_with (styleChange user) user h e w.

Definition run_listeners (user : jsstring -> bool) (hs : list handler) (e : event)
    (w : world) (pending : list upload_frame) : world * event * list upload_frame :=
  run_listeners_with (styleChange user) user hs e w pending.

(** The event on its target: the listeners registered on the target
    itself run.  This is the whole of the propagation when no ancestor
    of the target carries a listener for the event's type. *)
Definition dispatchEvent (user : jsstring -> bool) (e : event) (w : world)
  : world * event * list upload_frame :=
  run_listeners user (listeners_for (ev_target e) (ev_type e) w) e w [].

(** The whole propagation: the target, then its ancestors. *)
Definition fireEvent (user : jsstring -> bool) (e : event) (w : world)
  : world * event * list upload_frame :=
  run_path_with (styleChange user) user
    (ev_target e :: ancestors w (ev_target e)) e w [].

(** ** The binders *)

(** Falsy [getItem] result: [null] or the empty string. *)
Definition item_falsy (v : option jsstring) : bool :=
  match v with
  | None => true
  | Some s => negb (str_truthy s)
  end.

(** Lines 9-25.  [toggleBtn.addEventListener] is reached whether or not
    [toggleBtn] is [null]. *)
Definition initThemeToggle (w : world) : world * option exn :=
  let toggleBtn := getElementById w (str "theme-toggle") in
  let savedTheme := localStorage w !! str "theme" in
  let prefersLight := matchMedia_light w in
  let w :=
    if bool_decide (savedTheme = Some (str "light"))
       || (item_falsy savedTheme && prefersLight)
    then set_body_classList (body_classList w ∪ {[light_theme]}) w
    else w in
  match toggleBtn with
  | Some t => (addEventListener t Click ThemeClick w, None)
  | None => (w, Some (NullPropertyTypeError (str "addEventListener")))
  end.

Definition autoSubmitInputs : list jsstring :=
  [str "gallery-width"; str "gallery-height"; str "model-name"].

(** Lines 31-56. *)
Definition initAutoSubmit (w : world) : world :=
  let w :=
    foldl (fun w i =>
             match getElementById w i with
             | Some element => addEventListener element Change AutoSubmitChange w
             | None => w
             end) w autoSubmitInputs in
  match getElementById w (str "style-name") with
  | Some styleInput => addEventListener styleInput Change StyleChange w
  | None => w
  end.

(** Lines 61-84. *)
Definition initLoadingStates (w : world) : world :=
  match getElementById w (str "main-form") with
  | None => w
  | Some mainForm => addEventListener mainForm Submit MainFormSubmit w
  end.

(** Lines 90-101. *)
Definition initConfirmations (w : world) : world :=
  foldl (fun w btn => addEventListener btn Click (ConfirmClick btn) w) w
    (querySelectorAll_button_danger w).

(** Lines 106-161, the registrations. *)
Definition initImageUpload (w : world) : world :=
  match getElementById w (str "upload-image-btn"),
        getElementById w (str "local-image-upload"),
        getElementById w (str "image-urls") with
  | Some uploadBtn, Some fileInput, Some urlsTextarea =>
      let w := addEventListener uploadBtn Click (UploadBtnClick fileInput) w in
      addEventListener fileInput Change
        (FileInputChange uploadBtn fileInput urlsTextarea) w
  | _, _, _ => w
  end.

(** Lines 1-7: the [DOMContentLoaded] listener.  An exception in one
    binder ends it: the binders after it do not run. *)
Definition onDOMContentLoaded (w : world) : world * option exn :=
  let w := initAutoSubmit w in
  let w := initLoadingStates w in
  let w := initConfirmations w in
  match initThemeToggle w with
  | (w, Some err) => (w, Some err)
  | (w, None) => (initImageUpload w, None)
  end.

(** ** The rest of the upload flow

    What the engine decides: the number type of parsed JSON with its
    truthiness and [ToString], and the messages of the [TypeError]s
    that reading a property of [null] and converting an object to a
    primitive value raise. *)

Class engine := Engine {
  num : Type;
  num_is_zero : num -> bool;
  num_to_string : num -> jsstring;
  null_read_message : jsstring -> jsstring;
  to_primitive_message : jsstring
}.

Section Upload.
Context {E : engine}.

(** A value [JSON.parse] can return; a later duplicate key wins. *)
#[warnings="-register-all"] Inductive json :=
  | JNull
  | JBool (b : bool)
  | JNum (x : num)
  | JStr (s : jsstring)
  | JArr (items : list json)
  | JObj (fields : list (jsstring * json)).

(** The own property [key] of a parsed object, or [undefined]; here a
    JavaScript value is a parsed value or [undefined], written [None]. *)
Fixpoint own_property (key : jsstring) (fields : list (jsstring * json))
  : option json :=
  match fields with
  | [] => None
  | (k, v) :: r =>
      match own_property key r with
      | Some v' => Some v'
      | None => if bool_decide (k = key) then Some v else None
      end
  end.

(** [v.key] for a key that no prototype defines ([url], [error]). *)
Definition get_property (v : json) (key : jsstring) : exn + option json :=
  match v with
  | JNull => inl (NullPropertyTypeError key)
  | JObj fields => inr (own_property key fields)
  | _ => inr None
  end.

Definition truthy (v : option json) : bool :=
  match v with
  | None | Some JNull => false
  | Some (JBool b) => b
  | Some (JNum x) => negb (num_is_zero x)
  | Some (JStr s) => str_truthy s
  | Some (JArr _) | Some (JObj _) => true
  end.

(** [ToString], and the conversion to a primitive of [+] with a
    string, which gives the same on parsed values; [None] when it
    throws.  A parsed object inherits [toString] from
    [Object.prototype] unless it has a key of that name; the key then
    hides the inherited method with a value that cannot be called, and
    the inherited [valueOf] returns the object, so the conversion
    raises a [TypeError].  An array is joined, [null] items as empty
    strings, and throws when the conversion of an item does. *)
Fixpoint json_to_string (v : json) : option jsstring :=
  match v with
  | JNull => Some (str "null")
  | JBool true => Some (str "true")
  | JBool false => Some (str "false")
  | JNum x => Some (num_to_string x)
  | JStr s => Some s
  | JArr items =>
      (fix join (l : list json) : option jsstring :=
         match l with
         | [] => Some []
         | x :: r =>
             match (match x with JNull => Some [] | _ => json_to_string x end),
                   (match r with [] => Some [] | _ => (str "," ++.) <$> join r end) with
             | Some first, Some others => Some (first ++ others)
             | _, _ => None
             end
         end) items
  | JObj fields =>
      match own_property (str "toString") fields with
      | Some _ => None
      | None => Some (str "[object Object]")
      end
  end.

Definition to_string (v : option json) : option jsstring :=
  match v with
  | None => Some (str "undefined")
  | Some x => json_to_string x
  end.

(** [a || b] *)
Definition or_else (a b : option json) : option json :=
  if truthy a then a else b.

(** [err.message] *)
Definition exn_message (err : exn) : jsstring :=
  match err with
  | NullPropertyTypeError prop => null_read_message prop
  | ToPrimitiveTypeError => to_primitive_message
  | HostError m => m
  | ScriptError m => m
  end.

(** How the promise of [response.json()] settles, and how the request
    goes: [fetch] rejects, or fulfils with a response whose [ok] and
    body are given. *)
Inductive json_result :=
  | JsonRejected (err : exn)
  | JsonParsed (v : json).

Inductive upload_response :=
  | NetworkError (err : exn)
  | Response (ok : bool) (body : json_result).

(** The [finally] block (lines 154-159). *)
Definition upload_finally (k : upload_frame) (w : world) : world :=
  let w := update (uploadBtn k) (set_textContent (originalText k)) w in
  let w := update (uploadBtn k) (set_disabled false) w in
  update (fileInput k) (set_value []) w.

(** The [catch] block (lines 151-153), then [finally]. *)
Definition upload_catch (k : upload_frame) (err : exn) (w : world) : world :=
  let w := log (ConsoleError (str "Upload error:") err) w in
  let w := log (Alert (str "Failed to upload image: " ++ exn_message err)) w in
  upload_finally k w.

(** What assigning [v] to the [value] of a textarea stores: the
    property converts [null] to the empty string, anything else by
    [ToString]. *)
Definition value_assigned (v : option json) : option jsstring :=
  match v with
  | Some JNull => Some []
  | _ => to_string v
  end.

(** Lines 144-149.  The string to store is made before the textarea is
    written, so a conversion that throws leaves the textarea alone. *)
Definition append_url (urlsTextarea : node) (url : option json) (w : world)
  : exn + world :=
  let currentVal := trim (el_value (heap w urlsTextarea)) in
  let stored :=
    if str_truthy currentVal
    then (fun u => currentVal ++ newline ++ u) <$> to_string url
    else value_assigned url in
  match stored with
  | Some s => inr (update urlsTextarea (set_value s) w)
  | None => inl ToPrimitiveTypeError
  end.

(** The listener from the moment [response.json()] settles (lines
    135-159); [ok] is [response.ok]. *)
Definition resume_json (k : upload_frame) (ok : bool) (r : json_result) (w : world)
  : world :=
  match r with
  | JsonRejected err => upload_catch k err w
  | JsonParsed v =>
      if negb ok then
        match get_property v (str "error") with
        | inl err => upload_catch k err w
        | inr error =>
            match to_string (or_else error (Some (JStr (str "Upload failed")))) with
            | Some message => upload_catch k (ScriptError message) w
            | None => upload_catch k ToPrimitiveTypeError w
            end
        end
      else
        match get_property v (str "url") with
        | inl err => upload_catch k err w
        | inr url =>
            match append_url (urlsTextarea k) url w with
            | inl err => upload_catch k err w
            | inr w => upload_finally k w
            end
        end
  end.

(** The listener from the moment the promise of [fetch] settles. *)
Definition resume_fetch (k : upload_frame) (r : upload_response)
    (during_body : world -> world) (w : world) : world :=
  match r with
  | NetworkError err => upload_catch k err w
  | Response ok body => resume_json k ok body (during_body w)
  end.

(** One whole run of the change listener.  While it waits for [fetch]
    and then for the body, the page stays live: [during_fetch] and
    [during_body] are whatever other listeners and the user do to the
    world meanwhile. *)
Definition upload_run (during_fetch during_body : world -> world)
    (r : upload_response) (btn fi ta : node) (w : world) : world :=
  match fileInputChange_begin btn fi ta w with
  | (w, None) => w
  | (w, Some k) => resume_fetch k r during_body (during_fetch w)
  end.

End Upload.

(** ** The listener table after startup

    What each binder adds, written out; the lemmas below show the
    binders add exactly this. *)

(** The page after the [DOMContentLoaded] listener has run. *)
Definition loaded (w : world) : world := fst (onDOMContentLoaded w).

Definition register (regs : list (node * event_type * handler)) (w : world) : world :=
  set_listeners (listeners w ++ regs) w.

Definition by_id (w : world) (i : jsstring) (t : event_type) (h : handler)
  : list (node * event_type * handler) :=
  match getElementById w i with
  | Some n => [(n, t, h)]
  | None => []
  end.

Definition autoSubmit_regs (w : world) : list (node * event_type * handler) :=
  flat_map (fun i => by_id w i Change AutoSubmitChange) autoSubmitInputs
  ++ by_id w (str "style-name") Change StyleChange.

Definition confirm_regs (w : world) : list (node * event_type * handler) :=
  map (fun btn => (btn, Click, ConfirmClick btn)) (querySelectorAll_button_danger w).

Definition upload_regs (w : world) : list (node * event_type * handler) :=
  match getElementById w (str "upload-image-btn"),
        getElementById w (str "local-image-upload"),
        getElementById w (str "image-urls") with
  | Some b, Some f, Some t => [(b, Click, UploadBtnClick f); (f, Change, FileInputChange b f t)]
  | _, _, _ => []
  end.

(** The class list of the body after [initThemeToggle]. *)
Definition startup_classList (w : world) : gset jsstring :=
  if bool_decide (localStorage w !! str "theme" = Some (str "light"))
     || (item_falsy (localStorage w !! str "theme") && matchMedia_light w)
  then body_classList w ∪ {[light_theme]}
  else body_classList w.

(** The last part of the listener table: the toggle and the upload pair. *)
Definition late_regs (w : world) : list (node * event_type * handler) :=
  match getElementById w (str "theme-toggle") with
  | Some t => (t, Click, ThemeClick) :: upload_regs w
  | None => []
  end.

Definition startup_regs (w : world) : list (node * event_type * handler) :=
  autoSubmit_regs w ++ by_id w (str "main-form") Submit MainFormSubmit
  ++ confirm_regs w ++ late_regs w.

(** Click listeners that neither prompt nor touch the event. *)
Definition quiet (h : handler) : Prop :=
  h = ThemeClick ∨ ∃ f, h = UploadBtnClick f.

(** ** A sample page and engine, for concrete runs *)

Definition sample_engine : engine :=
  Engine Z (Z.eqb 0)
    (fun z => str (NilZero.string_of_int (Z.to_int z)))
    (fun prop => str "Cannot read properties of null (reading '" ++ prop ++ str "')")
    (str "Cannot convert object to primitive value").

Definition blank (tag : string) (i : option jsstring) : element :=
  Element (str tag) i ∅ ∅ [] [] false [] 0 None None.

Definition with_form (f : node) (e : element) : element :=
  Element (el_tag e) (el_id e) (el_classList e) (el_attributes e) (el_value e)
    (el_childNodes e) (el_disabled e) (el_style_width e)
    (el_offsetWidth e) (Some f) (el_files e).

Definition with_attribute (k v : jsstring) (e : element) : element :=
  Element (el_tag e) (el_id e) (el_classList e) (<[k := v]> (el_attributes e))
    (el_value e) (el_childNodes e) (el_disabled e)
    (el_style_width e) (el_offsetWidth e) (el_form e) (el_files e).

Definition with_files (l : list file) (e : element) : element :=
  Element (el_tag e) (el_id e) (el_classList e) (el_attributes e) (el_value e)
    (el_childNodes e) (el_disabled e) (el_style_width e)
    (el_offsetWidth e) (el_form e) (Some l).

Definition with_offsetWidth (n : N) (e : element) : element :=
  Element (el_tag e) (el_id e) (el_classList e) (el_attributes e) (el_value e)
    (el_childNodes e) (el_disabled e) (el_style_width e)
    n (el_form e) (el_files e).

Definition danger : gset jsstring := {[str "danger"]}.

Definition sample_file : file := File (str "cat.png") [137; 80; 78; 71].

Definition sample_elements : list element :=
  [ set_textContent (str "Theme") (blank "button" (Some (str "theme-toggle")));
    with_form 5%nat (set_value (str "4") (blank "select" (Some (str "gallery-width"))));
    with_form 5%nat (blank "select" (Some (str "style-name")));
    with_form 5%nat (set_value (str "append")
                   (blank "button" (Some (str "append-style-button"))));
    with_form 5%nat (with_offsetWidth 120
                   (set_innerHTML (str "Run") (set_value (str "run") (blank "button" None))));
    blank "form" (Some (str "main-form"));
    with_attribute (str "data-confirm") (str "Delete image?")
      (set_classList danger (blank "button" None));
    set_classList danger (blank "button" None);
    set_textContent (str "Upload") (blank "button" (Some (str "upload-image-btn")));
    with_files [sample_file] (blank "input" (Some (str "local-image-upload")));
    blank "textarea" (Some (str "image-urls"));
    with_attribute (str "data-confirm") []
      (set_classList danger (blank "button" None));
    with_form 5%nat (set_value (str "save") (set_innerHTML (str "Save") (blank "button" None)));
    blank "i" None ].

Definition sample_heap (n : node) : element :=
  nth n sample_elements (blank "div" None).

(** The tree of the sample page: the four controls of the main form
    are its children; [13] is an icon inside the danger button [6];
    everything else sits at the top. *)
Definition sample_ancestors (n : node) : list node :=
  if bool_decide (n ∈ [1; 2; 3; 4; 12]%nat) then [5%nat]
  else if bool_decide (n = 13%nat) then [6%nat]
  else [].

(** The page as served: no listener yet, nothing stored, nothing logged. *)
Definition sample_page (stored : option jsstring) (os_light : bool) : world :=
  World sample_heap (seq 0%nat (length sample_elements)) sample_ancestors ∅
    (match stored with Some v => {[str "theme" := v]} | None => ∅ end)
    os_light [] [].

(** The same page without the theme toggle. *)
Definition page_without_toggle : world :=
  World sample_heap (seq 1%nat (length sample_elements - 1)%nat) sample_ancestors
    ∅ ∅ false [] [].


(** ** What the specification says, in its own words *)

(** The light class is applied when the stored preference is "light",
    or nothing is stored and the OS prefers light; absent otherwise. *)
Definition spec_light_at_startup (stored : option jsstring) (os_light : bool) : bool :=
  bool_decide (stored = Some (str "light"))
  || (bool_decide (stored = None) && os_light).

(** The url alone into an empty textarea; otherwise the old content
    with its trailing whitespace trimmed, a newline, the url. *)
Definition spec_appended (prior url : jsstring) : jsstring :=
  match prior with
  | [] => url
  | _ => trimEnd prior ++ newline ++ url
  end.

(** The prompt shows the [data-confirm] attribute when present, a
    generic message otherwise. *)
Definition spec_confirm_message (el : element) : jsstring :=
  match el_attributes el !! str "data-confirm" with
  | Some m => m
  | None => generic_confirm
  end.

(** Some alert of the trace contains [s]. *)
Definition alert_contains (s : jsstring) (tr : list effect) : Prop :=
  ∃ m, In (Alert m) tr ∧ includes s m = true.

(** The [confirm] calls of a trace. *)
Definition confirms (tr : list effect) : list effect :=
  List.filter (fun x => match x with Confirm _ _ => true | _ => false end) tr.

(** ** Vocabulary for the further properties *)

(** The handlers the upload binder registers. *)
Definition is_upload_handler (h : handler) : bool :=
  match h with
  | UploadBtnClick _ | FileInputChange _ _ _ => true
  | _ => false
  end.

(** [n] clicks on the element [t], one after the other. *)
Fixpoint click_times (user : jsstring -> bool) (n : nat) (t : node) (w : world)
  : world :=
  match n with
  | O => w
  | S n' => click_times user n' t (fst (fst (dispatchEvent user (click_on t) w)))
  end.

(** The first and the last code unit of a string, when it has any, are
    not white space. *)
Definition starts_clean (s : jsstring) : bool :=
  match s with
  | [] => true
  | c :: _ => negb (is_js_whitespace c)
  end.

Definition ends_clean (s : jsstring) : bool := starts_clean (rev s).

(** Each part of the listener table holds its own kind of handler. *)
Definition handler_kind (h : handler) : nat :=
  match h with
  | AutoSubmitChange | StyleChange => 0
  | MainFormSubmit => 1
  | ConfirmClick _ => 2
  | ThemeClick => 3
  | UploadBtnClick _ => 4
  | FileInputChange _ _ _ => 5
  end.


(** The sample page without the textarea (and what follows it). *)
Definition page_without_textarea : world :=
  World sample_heap (seq 0%nat 10%nat) sample_ancestors ∅ ∅ false [] [].

(** An element taken out of its form. *)
Definition without_form (e : element) : element :=
  Element (el_tag e) (el_id e) (el_classList e) (el_attributes e) (el_value e)
    (el_childNodes e) (el_disabled e) (el_style_width e)
    (el_offsetWidth e) None (el_files e).




(** * Properties *)

(** ** Elements and lookups *)

Lemma heap_update_eq n f w : heap (update n f w) n = f (heap w n).
Proof. unfold update; simpl. apply fn_lookup_alter. Qed.

Lemma heap_update_ne n m f w : n ≠ m → heap (update n f w) m = heap w m.
Proof. intros H. unfold update; simpl. by apply fn_lookup_alter_ne. Qed.

Lemma getElementById_id w i n :
  getElementById w i = Some n → el_id (heap w n) = Some i.
Proof.
  unfold getElementById. intros H. apply find_some in H as [_ H].
  by apply bool_decide_eq_true in H.
Qed.

(** Two different ids never resolve to the same element. *)
Lemma getElementById_inj w i j n :
  getElementById w i = Some n → getElementById w j = Some n → i = j.
Proof.
  intros Hi Hj. apply getElementById_id in Hi, Hj. congruence.
Qed.

Lemma getElementById_distinct w i j n m :
  i ≠ j → getElementById w i = Some n → getElementById w j = Some m → n ≠ m.
Proof. intros Hij Hi Hj ->. eauto using getElementById_inj. Qed.

(** ** The binders only add listeners *)

Lemma register_nil w : register [] w = w.
Proof. destruct w. unfold register, set_listeners; simpl. by rewrite app_nil_r. Qed.

Lemma register_register r1 r2 w :
  register r2 (register r1 w) = register (r1 ++ r2) w.
Proof. unfold register, set_listeners; simpl. by rewrite app_assoc. Qed.

Lemma getElementById_register regs w i :
  getElementById (register regs w) i = getElementById w i.
Proof. reflexivity. Qed.

Lemma by_id_step regs w i t h :
  match getElementById (register regs w) i with
  | Some n => addEventListener n t h (register regs w)
  | None => register regs w
  end = register (regs ++ by_id w i t h) w.
Proof.
  rewrite getElementById_register. unfold by_id.
  destruct (getElementById w i).
  - unfold addEventListener, register, set_listeners; cbn. by rewrite app_assoc.
  - by rewrite app_nil_r.
Qed.

Lemma foldl_by_id ids t h regs w :
  foldl (fun w i =>
           match getElementById w i with
           | Some n => addEventListener n t h w
           | None => w
           end) (register regs w) ids
  = register (regs ++ flat_map (fun i => by_id w i t h) ids) w.
Proof.
  revert regs. induction ids as [|i ids IH]; intros regs; cbn [foldl flat_map].
  - by rewrite app_nil_r.
  - rewrite app_assoc, <- IH. f_equal. apply by_id_step.
Qed.

Lemma initAutoSubmit_register w :
  initAutoSubmit w = register (autoSubmit_regs w) w.
Proof.
  unfold initAutoSubmit, autoSubmit_regs.
  pose proof (foldl_by_id autoSubmitInputs Change AutoSubmitChange [] w) as H.
  rewrite register_nil in H. rewrite H. apply by_id_step.
Qed.

Lemma initLoadingStates_register w :
  initLoadingStates w = register (by_id w (str "main-form") Submit MainFormSubmit) w.
Proof.
  unfold initLoadingStates, by_id.
  destruct (getElementById w (str "main-form")); [reflexivity|].
  by rewrite register_nil.
Qed.

Lemma addEventListener_register n t h regs w :
  addEventListener n t h (register regs w) = register (regs ++ [(n, t, h)]) w.
Proof. unfold addEventListener, register, set_listeners; cbn. by rewrite app_assoc. Qed.

Lemma foldl_confirm l regs w :
  foldl (fun w btn => addEventListener btn Click (ConfirmClick btn) w)
    (register regs w) l
  = register (regs ++ map (fun btn => (btn, Click, ConfirmClick btn)) l) w.
Proof.
  revert regs. induction l as [|b l IH]; intros regs; cbn [foldl map].
  - by rewrite app_nil_r.
  - rewrite addEventListener_register, IH. by rewrite <- app_assoc.
Qed.

Lemma initConfirmations_register w :
  initConfirmations w = register (confirm_regs w) w.
Proof.
  unfold initConfirmations, confirm_regs.
  pose proof (foldl_confirm (querySelectorAll_button_danger w) [] w) as H.
  by rewrite register_nil in H.
Qed.

Lemma initImageUpload_register w :
  initImageUpload w = register (upload_regs w) w.
Proof.
  unfold initImageUpload, upload_regs.
  destruct (getElementById w (str "upload-image-btn")),
           (getElementById w (str "local-image-upload")),
           (getElementById w (str "image-urls"));
    rewrite ?register_nil; try reflexivity.
  unfold addEventListener, register, set_listeners; cbn. by rewrite <- app_assoc.
Qed.

(** The page after the [DOMContentLoaded] listener has run. *)
Lemma loaded_eq w :
  loaded w = register (startup_regs w) (set_body_classList (startup_classList w) w).
Proof.
  unfold loaded, onDOMContentLoaded.
  rewrite initAutoSubmit_register, initLoadingStates_register,
    initConfirmations_register.
  change (by_id (register ?r w) ?i) with (by_id w i).
  change (confirm_regs (register ?r ?v)) with (confirm_regs v).
  rewrite !register_register.
  unfold initThemeToggle, startup_regs, late_regs, startup_classList.
  rewrite getElementById_register.
  cbn [localStorage register set_listeners matchMedia_light body_classList].
  destruct (getElementById w (str "theme-toggle")) as [t|];
    destruct (bool_decide _ || _); cbn [fst];
    rewrite ?initImageUpload_register;
    destruct w as [h d an c s p l tr];
    unfold register, addEventListener, set_listeners, set_body_classList,
      upload_regs, confirm_regs, querySelectorAll_button_danger, getElementById;
    cbn [heap doc body_classList localStorage matchMedia_light listeners trace];
    f_equal; rewrite <- ?app_assoc; repeat f_equal;
    rewrite ?app_nil_r; reflexivity.
Qed.

Lemma listeners_loaded w : listeners (loaded w) = listeners w ++ startup_regs w.
Proof. by rewrite loaded_eq. Qed.

Lemma body_classList_loaded w : body_classList (loaded w) = startup_classList w.
Proof. by rewrite loaded_eq. Qed.

(** ** Theme at startup *)

Lemma item_falsy_spec v : item_falsy v = true ↔ v = None ∨ v = Some [].
Proof.
  destruct v as [[|c s]|]; cbn; split; intros H; auto;
    try discriminate; destruct H; congruence.
Qed.

(** C7 (amended): after startup the body carries the light-theme class
    exactly when it carried it already, or the stored theme is "light",
    or the stored theme is absent or the empty string and the OS
    prefers light. *)
Theorem startup_light_class w :
  light_theme ∈ body_classList (loaded w) ↔
    light_theme ∈ body_classList w
    ∨ localStorage w !! str "theme" = Some (str "light")
    ∨ ((localStorage w !! str "theme" = None
        ∨ localStorage w !! str "theme" = Some [])
       ∧ matchMedia_light w = true).
Proof.
  rewrite body_classList_loaded. unfold startup_classList.
  destruct (bool_decide _ || _) eqn:Hc.
  - split; [intros _|by intros _; apply elem_of_union; right; apply elem_of_singleton].
    apply orb_true_iff in Hc as [Hc|Hc].
    + apply bool_decide_eq_true in Hc. auto.
    + apply andb_true_iff in Hc as [Hf Hp].
      apply item_falsy_spec in Hf. auto.
  - apply orb_false_iff in Hc as [Hs Hc].
    apply bool_decide_eq_false in Hs.
    split; [auto|]. intros [H|[H|[H Hp]]]; [done|done|].
    apply item_falsy_spec in H. rewrite H, Hp in Hc. discriminate.
Qed.

(** C7 as written fails when the stored theme is the empty string and
    the OS prefers light: the class is applied. *)
Lemma startup_light_class_empty_string :
  ¬ (light_theme ∈ body_classList (loaded (sample_page (Some []) true))
     ↔ spec_light_at_startup (Some []) true = true).
Proof.
  intros [H _]. cut (false = true); [discriminate|].
  apply H. rewrite body_classList_loaded.
  apply elem_of_union_r, elem_of_singleton. reflexivity.
Qed.

(** ** Startup without the theme toggle *)

(** The startup listener throws exactly when the theme toggle is
    missing; no other missing element makes it throw. *)
Lemma startup_throws_iff w :
  snd (onDOMContentLoaded w) = None
  ↔ is_Some (getElementById w (str "theme-toggle")).
Proof.
  unfold onDOMContentLoaded, initThemeToggle.
  rewrite initAutoSubmit_register, initLoadingStates_register,
    initConfirmations_register, !getElementById_register.
  destruct (getElementById w (str "theme-toggle")) as [t|]; cbn [snd].
  - split; eauto.
  - split; [discriminate|]. by intros [? ?].
Qed.

(** C9: on a page without the element [theme-toggle] the startup
    listener ends with a [TypeError], after [initThemeToggle] called a
    method on [null], and the upload binder never runs: the file input
    has no change listener. *)
Theorem startup_without_toggle_throws :
  snd (onDOMContentLoaded page_without_toggle)
    = Some (NullPropertyTypeError (str "addEventListener"))
  ∧ getElementById page_without_toggle (str "local-image-upload") = Some 9%nat
  ∧ listeners_for 9%nat Change (loaded page_without_toggle) = [].
Proof. vm_compute. auto. Qed.

(** ** Which listeners an element has after startup *)

Ltac str_ne := let H := fresh in intros H; vm_compute in H; discriminate H.

Lemma handlers_for_app n t l1 l2 :
  handlers_for n t (l1 ++ l2) = handlers_for n t l1 ++ handlers_for n t l2.
Proof. unfold handlers_for. by rewrite List.filter_app, map_app. Qed.

Lemma handlers_for_cons n t m t' h l :
  handlers_for n t ((m, t', h) :: l)
  = (if bool_decide (m = n ∧ t' = t) then [h] else []) ++ handlers_for n t l.
Proof. unfold handlers_for; cbn. by destruct (bool_decide _). Qed.

Lemma handlers_for_by_id_same w i n t h :
  getElementById w i = Some n → handlers_for n t (by_id w i t h) = [h].
Proof.
  intros H. unfold by_id. rewrite H, handlers_for_cons.
  rewrite bool_decide_eq_true_2; auto.
Qed.

Lemma handlers_for_by_id_other w i j n t t' h :
  getElementById w i = Some n → i ≠ j → handlers_for n t (by_id w j t' h) = [].
Proof.
  intros H Hij. unfold by_id. destruct (getElementById w j) as [m|] eqn:Hj; [|done].
  rewrite handlers_for_cons, bool_decide_eq_false_2; [done|].
  intros [-> _]. eauto using getElementById_inj.
Qed.

Lemma handlers_for_by_id_type w j n t t' h :
  t' ≠ t → handlers_for n t (by_id w j t' h) = [].
Proof.
  intros Ht. unfold by_id. destruct (getElementById w j) as [m|]; [|done].
  rewrite handlers_for_cons, bool_decide_eq_false_2; [done|]. by intros [_ ?].
Qed.

Lemma handlers_for_confirm_type w n t :
  t ≠ Click → handlers_for n t (confirm_regs w) = [].
Proof.
  intros Ht. unfold confirm_regs.
  induction (querySelectorAll_button_danger w) as [|b l IH]; [done|].
  cbn [map]. rewrite handlers_for_cons, IH, bool_decide_eq_false_2; [done|].
  intros [_ ?]; congruence.
Qed.

Lemma handlers_for_upload_change_other w i n :
  getElementById w i = Some n → i ≠ str "local-image-upload" →
  handlers_for n Change (upload_regs w) = [].
Proof.
  intros H Hi. unfold upload_regs.
  destruct (getElementById w (str "upload-image-btn")) as [b|]; [|done].
  destruct (getElementById w (str "local-image-upload")) as [f|] eqn:Hf; [|done].
  destruct (getElementById w (str "image-urls")) as [t|]; [|done].
  rewrite !handlers_for_cons.
  rewrite !bool_decide_eq_false_2; [done| |].
  - intros [-> _]. eauto using getElementById_inj.
  - by intros [_ ?].
Qed.

Lemma handlers_for_theme_upload_change_other w i n :
  getElementById w i = Some n → i ≠ str "local-image-upload" →
  handlers_for n Change (late_regs w) = [].
Proof.
  intros H Hi. unfold late_regs.
  destruct (getElementById w (str "theme-toggle")); [|done].
  rewrite handlers_for_cons, bool_decide_eq_false_2 by (by intros [_ ?]).
  eauto using handlers_for_upload_change_other.
Qed.

(** An auto-submit field has one change listener, the submitting one. *)
Lemma change_listeners_autoSubmit w0 i n :
  listeners w0 = [] → i ∈ autoSubmitInputs → getElementById w0 i = Some n →
  listeners_for n Change (loaded w0) = [AutoSubmitChange].
Proof.
  intros Hl Hi Hn. unfold listeners_for.
  rewrite listeners_loaded, Hl. cbn [app].
  unfold startup_regs, autoSubmit_regs, autoSubmitInputs. cbn [flat_map].
  rewrite !handlers_for_app.
  rewrite (handlers_for_by_id_type _ (str "main-form")) by done.
  rewrite handlers_for_confirm_type by done.
  unfold autoSubmitInputs in Hi.
  apply elem_of_cons in Hi as [->|Hi]; [|apply elem_of_cons in Hi as [->|Hi];
    [|apply elem_of_cons in Hi as [->|Hi]; [|by apply elem_of_nil in Hi]]].
  all: rewrite (handlers_for_by_id_same _ _ _ _ _ Hn).
  all: rewrite !(handlers_for_by_id_other _ _ _ _ _ _ _ Hn) by str_ne.
  all: rewrite (handlers_for_theme_upload_change_other _ _ _ Hn) by str_ne.
  all: reflexivity.
Qed.


Lemma handlers_for_type_nil n t regs :
  Forall (fun x => snd (fst x) ≠ t) regs → handlers_for n t regs = [].
Proof.
  induction 1 as [|[[m t'] h] l Hx _ IH]; [done|].
  rewrite handlers_for_cons, IH, bool_decide_eq_false_2; [done|].
  cbn in Hx. by intros [_ ?].
Qed.

Lemma autoSubmit_regs_type w :
  Forall (fun x => snd (fst x) = Change) (autoSubmit_regs w).
Proof.
  unfold autoSubmit_regs, autoSubmitInputs, by_id. cbn [flat_map].
  repeat (apply Forall_app; split);
    repeat match goal with |- context [getElementById w ?i] =>
      destruct (getElementById w i) end;
    repeat constructor.
Qed.

Lemma handlers_for_autoSubmit_type w n t :
  t ≠ Change → handlers_for n t (autoSubmit_regs w) = [].
Proof.
  intros Ht. apply handlers_for_type_nil.
  eapply Forall_impl; [apply autoSubmit_regs_type|].
  intros x Hx. cbn in Hx. congruence.
Qed.

Lemma startup_regs_eq w :
  startup_regs w
  = autoSubmit_regs w ++ by_id w (str "main-form") Submit MainFormSubmit
    ++ confirm_regs w ++ late_regs w.
Proof. reflexivity. Qed.



(** ** Loading state *)



Lemma el_textContent_set_textContent s e :
  el_textContent (set_textContent s e) = s.
Proof.
  unfold el_textContent, set_textContent. destruct s; [done|].
  cbn. by rewrite app_nil_r.
Qed.

Lemma el_textContent_set_disabled b e :
  el_textContent (set_disabled b e) = el_textContent e.
Proof. reflexivity. Qed.

Lemma el_textContent_set_value s e :
  el_textContent (set_value s e) = el_textContent e.
Proof. reflexivity. Qed.

Lemma el_disabled_set_textContent s e :
  el_disabled (set_textContent s e) = el_disabled e.
Proof. reflexivity. Qed.

Lemma el_value_set_textContent s e :
  el_value (set_textContent s e) = el_value e.
Proof. reflexivity. Qed.

Lemma el_files_set_textContent s e :
  el_files (set_textContent s e) = el_files e.
Proof. reflexivity. Qed.

Create Rewrite HintDb content.

#[local] Hint Rewrite el_textContent_set_textContent el_textContent_set_disabled
  el_textContent_set_value el_disabled_set_textContent el_value_set_textContent
  el_files_set_textContent : content.


(** ** Running several listeners *)

Lemma run_listeners_app user l1 l2 e w p :
  run_listeners user (l1 ++ l2) e w p
  = let r := run_listeners user l1 e w p in
    run_listeners user l2 (snd (fst r)) (fst (fst r)) (snd r).
Proof.
  unfold run_listeners, run_handler.
  revert e w p. induction l1 as [|h l1 IH]; intros e w p; [done|].
  cbn [app run_listeners run_listeners_with]. by rewrite IH.
Qed.

Lemma run_listeners_quiet user hs e w p :
  Forall quiet hs →
  let r := run_listeners user hs e w p in
  snd (fst r) = e ∧ snd r = p
  ∧ heap (fst (fst r)) = heap w
  ∧ confirms (trace (fst (fst r))) = confirms (trace w).
Proof.
  unfold run_listeners, run_handler.
  intros H. revert w. induction H as [|h hs Hh _ IH]; intros w; [done|].
  cbn [run_listeners_with]. destruct Hh as [->|[f ->]]; cbn [run_handler_with out_thrown
    out_world out_event out_pending option_list]; rewrite app_nil_r.
  - destruct (IH (themeClick w)) as (He & Hp & Hh & Ht). by repeat split.
  - destruct (IH (log (ElementClick f) w)) as (He & Hp & Hh & Ht).
    repeat split; try done. rewrite Ht. unfold confirms, log; cbn.
    by rewrite List.filter_app, app_nil_r.
Qed.

Lemma late_regs_click_quiet w n : Forall quiet (handlers_for n Click (late_regs w)).
Proof.
  unfold late_regs, upload_regs, quiet.
  repeat match goal with |- context [getElementById w ?i] =>
    destruct (getElementById w i) end;
  rewrite ?handlers_for_cons;
  repeat case_bool_decide;
  repeat match goal with H : _ ∧ Change = Click |- _ => destruct H as [_ [=]] end;
  cbn [app]; repeat (apply Forall_cons; split); try apply Forall_nil; eauto.
Qed.

Lemma handlers_for_confirm_click l n :
  handlers_for n Click (map (fun btn => (btn, Click, ConfirmClick btn)) l)
  = repeat (ConfirmClick n) (count_occ Nat.eq_dec l n).
Proof.
  induction l as [|b l IH]; [done|].
  cbn [map count_occ]. rewrite handlers_for_cons, IH.
  destruct (Nat.eq_dec b n) as [->|Hne].
  - by rewrite bool_decide_eq_true_2.
  - rewrite bool_decide_eq_false_2; [done|]. by intros [? _].
Qed.

Lemma count_occ_NoDup (l : list nat) n :
  NoDup l → n ∈ l → count_occ Nat.eq_dec l n = 1%nat.
Proof.
  intros Hnd Hin. apply NoDup_ListNoDup in Hnd.
  apply list_elem_of_In in Hin.
  by apply (proj1 (NoDup_count_occ' Nat.eq_dec l) Hnd).
Qed.

Lemma querySelectorAll_NoDup w :
  NoDup (doc w) → NoDup (querySelectorAll_button_danger w).
Proof.
  intros H. apply NoDup_ListNoDup. apply List.NoDup_filter.
  by apply NoDup_ListNoDup.
Qed.

(** A danger button has one prompting click listener, and it runs first
    among this script's click listeners. *)
Lemma click_listeners_danger w0 btn :
  listeners w0 = [] → NoDup (doc w0) → btn ∈ querySelectorAll_button_danger w0 →
  ∃ tl, listeners_for btn Click (loaded w0) = ConfirmClick btn :: tl ∧ Forall quiet tl.
Proof.
  intros Hl Hnd Hin. exists (handlers_for btn Click (late_regs w0)).
  split; [|apply late_regs_click_quiet].
  unfold listeners_for. rewrite listeners_loaded, Hl, startup_regs_eq. cbn [app].
  rewrite !handlers_for_app.
  rewrite handlers_for_autoSubmit_type, handlers_for_by_id_type by done.
  unfold confirm_regs. rewrite handlers_for_confirm_click.
  rewrite count_occ_NoDup; auto using querySelectorAll_NoDup.
Qed.

(** ** Confirmation *)

(** C5 (amended): after startup, a click on a [button.danger] element
    shows one confirmation prompt; its message is the [data-confirm]
    attribute when that is present and not empty, the generic message
    otherwise; the click ends prevented exactly when the user declines. *)
Theorem click_danger_confirms (user : jsstring → bool) (w0 w : world) (btn : node) :
  listeners w0 = [] →
  NoDup (doc w0) →
  btn ∈ querySelectorAll_button_danger w0 →
  listeners w = listeners (loaded w0) →
  ∃ message,
    (∀ m, el_attributes (heap w btn) !! str "data-confirm" = Some m → m ≠ [] →
       message = m)
    ∧ (el_attributes (heap w btn) !! str "data-confirm" = None
       ∨ el_attributes (heap w btn) !! str "data-confirm" = Some [] →
       message = str "Are you sure you want to proceed?")
    ∧ let r := dispatchEvent user (click_on btn) w in
      confirms (trace (fst (fst r)))
        = confirms (trace w) ++ [Confirm message (user message)]
      ∧ ev_defaultPrevented (snd (fst r)) = negb (user message).
Proof.
  intros Hl Hnd Hin Hw. exists (confirm_message (heap w btn)).
  split; [|split].
  - intros m Hm Hne. unfold confirm_message. rewrite Hm. by destruct m.
  - unfold confirm_message. by intros [-> | ->].
  - destruct (click_listeners_danger w0 btn Hl Hnd Hin) as (tl & Hhs & Hq).
    unfold dispatchEvent, listeners_for. rewrite Hw.
    fold (listeners_for (ev_target (click_on btn)) (ev_type (click_on btn)) (loaded w0)).
    cbn [ev_target ev_type click_on]. rewrite Hhs.
    cbn [run_listeners run_listeners_with run_handler run_handler_with out_thrown out_world out_event out_pending
         option_list app].
    set (msg := confirm_message (heap w btn)).
    pose proof (run_listeners_quiet user tl
      (snd (confirmClick user btn (click_on btn) w))
      (fst (confirmClick user btn (click_on btn) w)) [] Hq)
      as (He & _ & _ & Ht).
    unfold run_listeners in He, Ht.
    cbv zeta. rewrite He, Ht. unfold confirmClick. fold msg.
    destruct (user msg) eqn:Hu; cbn [negb fst snd]; split; try reflexivity;
      unfold confirms, log; cbn [trace]; by rewrite List.filter_app.
Qed.

(** ** Auto-submit, and the click the style dropdown makes *)

Lemma run_listeners_with_app style user l1 l2 e w p :
  run_listeners_with style user (l1 ++ l2) e w p
  = let r := run_listeners_with style user l1 e w p in
    run_listeners_with style user l2 (snd (fst r)) (fst (fst r)) (snd r).
Proof.
  revert e w p. induction l1 as [|h l1 IH]; intros e w p; [done|].
  cbn [app run_listeners_with]. by rewrite IH.
Qed.








(** ** Theme toggle *)

Lemma run_handler_with_listeners style user h e w :
  (∀ x, listeners (fst (style x)) = listeners x) →
  listeners (out_world (run_handler_with style user h e w)) = listeners w.
Proof.
  intros Hs. destruct h; cbn; try reflexivity.
  - unfold autoSubmitChange. by destruct (el_form _).
  - apply Hs.
  - unfold mainFormSubmit. destruct (ev_submitter e); [|done].
    by destruct (bool_decide _).
  - unfold confirmClick. by destruct (negb _).
  - unfold fileInputChange_begin. by destruct (el_files _) as [[|? ?]|].
Qed.

Lemma run_listeners_with_listeners style user hs e w p :
  (∀ x, listeners (fst (style x)) = listeners x) →
  listeners (fst (fst (run_listeners_with style user hs e w p))) = listeners w.
Proof.
  intros Hs. revert e w p. induction hs as [|h hs IH]; intros e w p; [done|].
  cbn [run_listeners_with]. rewrite IH.
  destruct (out_thrown _); cbn; by apply run_handler_with_listeners.
Qed.

Lemma run_path_with_listeners style user path e w p :
  (∀ x, listeners (fst (style x)) = listeners x) →
  listeners (fst (fst (run_path_with style user path e w p))) = listeners w.
Proof.
  intros Hs. revert e w p. induction path as [|m path IH]; intros e w p; [done|].
  cbn [run_path_with]. rewrite IH. by apply run_listeners_with_listeners.
Qed.

Lemma styleChange_busy_listeners w :
  listeners (fst (styleChange_busy w)) = listeners w.
Proof. unfold styleChange_busy. by destruct (getElementById _ _). Qed.

Lemma styleChange_listeners user w :
  listeners (fst (styleChange user w)) = listeners w.
Proof.
  unfold styleChange, click_appendBtn.
  destruct (getElementById _ _) as [b|]; [|done].
  cbn [heap log]. destruct (el_disabled _); [done|]. cbn [fst].
  destruct (ev_defaultPrevented _); cbn [listeners log];
    (rewrite run_path_with_listeners; [done|apply styleChange_busy_listeners]).
Qed.

Lemma run_handler_listeners user h e w :
  listeners (out_world (run_handler user h e w)) = listeners w.
Proof. apply run_handler_with_listeners, styleChange_listeners. Qed.

Lemma run_listeners_listeners user hs e w p :
  listeners (fst (fst (run_listeners user hs e w p))) = listeners w.
Proof. apply run_listeners_with_listeners, styleChange_listeners. Qed.

Lemma run_listeners_confirms_theme user btn k e w p :
  let r := run_listeners user (repeat (ConfirmClick btn) k) e w p in
  body_classList (fst (fst r)) = body_classList w
  ∧ localStorage (fst (fst r)) = localStorage w.
Proof.
  unfold run_listeners, run_handler.
  revert e w p. induction k as [|k IH]; intros e w p; [done|].
  cbn [repeat run_listeners run_listeners_with run_handler run_handler_with out_thrown out_world out_event out_pending].
  destruct (IH (snd (confirmClick user btn e w)) (fst (confirmClick user btn e w))
              (p ++ [])) as [Hc Hs].
  cbv zeta in *. rewrite Hc, Hs. unfold confirmClick. by destruct (negb _).
Qed.

(** The theme toggle has one toggling click listener, run after any
    prompt it may have as a danger button. *)
Lemma click_listeners_toggle w0 t :
  listeners w0 = [] → getElementById w0 (str "theme-toggle") = Some t →
  ∃ k, listeners_for t Click (loaded w0) = repeat (ConfirmClick t) k ++ [ThemeClick].
Proof.
  intros Hl Ht.
  exists (count_occ Nat.eq_dec (querySelectorAll_button_danger w0) t).
  unfold listeners_for. rewrite listeners_loaded, Hl, startup_regs_eq. cbn [app].
  rewrite !handlers_for_app.
  rewrite handlers_for_autoSubmit_type, handlers_for_by_id_type by done.
  unfold confirm_regs. rewrite handlers_for_confirm_click. cbn [app].
  f_equal. unfold late_regs. rewrite Ht.
  rewrite handlers_for_cons, bool_decide_eq_true_2 by done.
  cbn [app]. f_equal. unfold upload_regs.
  destruct (getElementById w0 (str "upload-image-btn")) as [b|] eqn:Hb; [|done].
  destruct (getElementById w0 (str "local-image-upload")) as [f|]; [|done].
  destruct (getElementById w0 (str "image-urls")) as [ta|]; [|done].
  rewrite !handlers_for_cons, !bool_decide_eq_false_2; [done| |].
  - by intros [_ ?].
  - intros [-> _].
    by pose proof (getElementById_inj _ _ _ _ Hb Ht) as Hs; vm_compute in Hs.
Qed.

Lemma click_toggle user w0 w t :
  listeners w0 = [] → getElementById w0 (str "theme-toggle") = Some t →
  listeners w = listeners (loaded w0) →
  let w' := fst (fst (dispatchEvent user (click_on t) w)) in
  body_classList w' = body_classList (themeClick w)
  ∧ localStorage w' = localStorage (themeClick w)
  ∧ listeners w' = listeners w.
Proof.
  intros Hl Ht Hw w'. subst w'. unfold dispatchEvent.
  rewrite run_listeners_listeners. split; [|split]; [| |done].
  all: unfold listeners_for; rewrite Hw;
    fold (listeners_for (ev_target (click_on t)) (ev_type (click_on t)) (loaded w0));
    cbn [ev_target ev_type click_on];
    destruct (click_listeners_toggle w0 t Hl Ht) as [k ->];
    rewrite run_listeners_app; cbv zeta;
    cbn [run_listeners run_listeners_with run_handler run_handler_with out_thrown out_world fst];
    unfold themeClick; cbn [body_classList localStorage set_body_classList set_localStorage];
    pose proof (run_listeners_confirms_theme user t k (click_on t) w []) as [Hc Hs];
    cbv zeta in Hc, Hs; by rewrite ?Hc, ?Hs.
Qed.

Lemma classList_toggle_twice c s :
  classList_toggle c (classList_toggle c s) = s.
Proof.
  unfold classList_toggle. destruct (decide (c ∈ s)) as [Hin|Hin].
  - rewrite decide_False by set_solver.
    apply set_eq. intros x. destruct (decide (x = c)); set_solver.
  - rewrite decide_True by set_solver. set_solver.
Qed.

(** C8 (amended): after startup, two clicks on the theme toggle bring
    the class list of the body back to what it was, and leave under the
    key [theme] "light" when the body carried the light-theme class
    before the clicks and "dark" otherwise, whatever was stored before;
    every other stored entry is untouched. *)
Theorem toggle_twice (user1 user2 : jsstring → bool) (w0 w : world) (t : node) :
  listeners w0 = [] →
  getElementById w0 (str "theme-toggle") = Some t →
  listeners w = listeners (loaded w0) →
  let w1 := fst (fst (dispatchEvent user1 (click_on t) w)) in
  let w2 := fst (fst (dispatchEvent user2 (click_on t) w1)) in
  body_classList w2 = body_classList w
  ∧ localStorage w2
    = <[str "theme" := if bool_decide (light_theme ∈ body_classList w)
                       then str "light" else str "dark"]> (localStorage w).
Proof.
  intros Hl Ht Hw w1 w2.
  destruct (click_toggle user1 w0 w t Hl Ht Hw) as (Hc1 & Hs1 & Hl1).
  fold w1 in Hc1, Hs1, Hl1.
  assert (Hw1 : listeners w1 = listeners (loaded w0)) by congruence.
  destruct (click_toggle user2 w0 w1 t Hl Ht Hw1) as (Hc2 & Hs2 & _).
  fold w2 in Hc2, Hs2. rewrite Hc2, Hs2.
  unfold themeClick. cbn [body_classList localStorage set_body_classList
    set_localStorage].
  rewrite Hc1, Hs1. unfold themeClick. cbn [body_classList localStorage
    set_body_classList set_localStorage].
  rewrite classList_toggle_twice. split; [done|].
  by rewrite insert_insert_eq.
Qed.

(** C8 as written fails on the sample page with nothing stored: after
    two clicks the entry holds "dark". *)
Lemma toggle_twice_stores_dark :
  let w := loaded (sample_page None false) in
  let w1 := fst (fst (dispatchEvent (fun _ => true) (click_on 0%nat) w)) in
  let w2 := fst (fst (dispatchEvent (fun _ => true) (click_on 0%nat) w1)) in
  localStorage w !! str "theme" = None
  ∧ localStorage w2 !! str "theme" = Some (str "dark")
  ∧ localStorage w2 !! str "theme" ≠ localStorage w !! str "theme".
Proof. vm_compute. repeat split; discriminate. Qed.

(** ** Upload: the change listener *)

(** The file input has at most one change listener, the uploading one. *)
Lemma change_listeners_fileInput w0 fi :
  listeners w0 = [] → getElementById w0 (str "local-image-upload") = Some fi →
  listeners_for fi Change (loaded w0) = []
  ∨ ∃ btn ta, listeners_for fi Change (loaded w0) = [FileInputChange btn fi ta].
Proof.
  intros Hl Hf. unfold listeners_for.
  rewrite listeners_loaded, Hl, startup_regs_eq. cbn [app].
  unfold autoSubmit_regs, autoSubmitInputs. cbn [flat_map].
  rewrite !handlers_for_app.
  rewrite !(handlers_for_by_id_other _ _ _ _ _ _ _ Hf) by str_ne.
  rewrite handlers_for_confirm_type by done. cbn [app].
  unfold late_regs, upload_regs. rewrite Hf.
  destruct (getElementById w0 (str "theme-toggle")) as [t|]; [|by left].
  rewrite handlers_for_cons, bool_decide_eq_false_2 by (by intros [_ ?]).
  destruct (getElementById w0 (str "upload-image-btn")) as [b|]; [|by left].
  destruct (getElementById w0 (str "image-urls")) as [ta|]; [|by left].
  right. exists b, ta.
  rewrite !handlers_for_cons.
  rewrite bool_decide_eq_false_2 by (by intros [_ ?]).
  by rewrite bool_decide_eq_true_2.
Qed.


(** C10: after startup, a change event on the file input while no file
    is selected changes nothing: the world (elements, storage, trace of
    host calls, so no [fetch]) and the event are as before and no
    upload is left pending. *)
Theorem change_without_file (user : jsstring → bool) (w0 w : world) (fi : node) :
  listeners w0 = [] →
  getElementById w0 (str "local-image-upload") = Some fi →
  listeners w = listeners (loaded w0) →
  el_files (heap w fi) = None ∨ el_files (heap w fi) = Some [] →
  dispatchEvent user (change_on fi) w = (w, change_on fi, []).
Proof.
  intros Hl Hf Hw Hfiles. unfold dispatchEvent, listeners_for. rewrite Hw.
  fold (listeners_for (ev_target (change_on fi)) (ev_type (change_on fi)) (loaded w0)).
  cbn [ev_target ev_type change_on].
  destruct (change_listeners_fileInput w0 fi Hl Hf) as [->|(btn & ta & ->)];
    [done|].
  cbn [run_listeners run_listeners_with run_handler run_handler_with]. unfold fileInputChange_begin.
  by destruct Hfiles as [-> | ->].
Qed.

(** ** Upload: after the response *)

Lemma is_prefix_refl s : is_prefix s s = true.
Proof. induction s as [|c s IH]; [done|]. cbn. by rewrite N.eqb_refl. Qed.

Lemma includes_self s : includes s s = true.
Proof. destruct s; cbn; [done|]. by rewrite N.eqb_refl, is_prefix_refl. Qed.

Lemma includes_app_r p s : includes s (p ++ s) = true.
Proof.
  induction p as [|c p IH]; [apply includes_self|].
  cbn [app includes]. rewrite IH. apply orb_true_r.
Qed.

Section UploadProperties.
Context {E : engine}.

Lemma upload_finally_spec (k : upload_frame) (w : world) :
  let w' := upload_finally k w in
  el_textContent (heap w' (uploadBtn k)) = originalText k
  ∧ el_disabled (heap w' (uploadBtn k)) = false
  ∧ el_value (heap w' (fileInput k)) = []
  ∧ (∀ f l, el_files (heap w' (fileInput k)) ≠ Some (f :: l)).
Proof.
  cbv zeta. unfold upload_finally.
  destruct (decide (fileInput k = uploadBtn k)) as [Heq|Hne].
  - rewrite <- Heq. rewrite !heap_update_eq. autorewrite with content. cbn.
    repeat split. intros f l. by destruct (el_files _).
  - rewrite !(heap_update_ne _ _ _ _ Hne), !heap_update_eq.
    autorewrite with content. cbn.
    repeat split. intros f l. by destruct (el_files _).
Qed.

Lemma upload_finally_other (k : upload_frame) (w : world) n :
  n ≠ fileInput k → el_value (heap (upload_finally k w) n) = el_value (heap w n).
Proof.
  intros Hn. unfold upload_finally.
  rewrite heap_update_ne by done.
  destruct (decide (uploadBtn k = n)) as [<-|Hne].
  - by rewrite !heap_update_eq.
  - by rewrite !heap_update_ne.
Qed.

Lemma upload_finally_trace (k : upload_frame) (w : world) :
  trace (upload_finally k w) = trace w.
Proof. reflexivity. Qed.

(** Every way the listener can end after the body is read goes through
    the [finally] block last. *)
Lemma resume_json_finally (k : upload_frame) ok (r : json_result) w :
  ∃ w1, resume_json k ok r w = upload_finally k w1.
Proof.
  unfold resume_json, upload_catch. destruct r as [err|v]; [eauto|].
  destruct (negb ok).
  - destruct (get_property v (str "error")); [eauto|].
    destruct (to_string _); eauto.
  - destruct (get_property v (str "url")); [eauto|].
    destruct (append_url _ _ _); eauto.
Qed.

Lemma upload_run_finally df db (r : upload_response) btn fi ta w file rest :
  el_files (heap w fi) = Some (file :: rest) →
  ∃ w1, upload_run df db r btn fi ta w
        = upload_finally (Frame btn fi ta (el_textContent (heap w btn))) w1.
Proof.
  intros Hf. unfold upload_run, fileInputChange_begin. rewrite Hf.
  unfold resume_fetch. destruct r as [err|ok body].
  - unfold upload_catch. eauto.
  - apply resume_json_finally.
Qed.

Lemma upload_run_response df db ok (body : json_result) btn fi ta w file rest :
  el_files (heap w fi) = Some (file :: rest) →
  upload_run df db (Response ok body) btn fi ta w
  = resume_json (Frame btn fi ta (el_textContent (heap w btn))) ok body
      (upload_at_body df db btn fi ta w).
Proof.
  intros Hf. unfold upload_run, upload_at_body, fileInputChange_begin.
  by rewrite Hf.
Qed.

(** C3: whenever the change listener starts an upload (a file is
    selected), then however the request ends (a network error, a failure
    status, a body that does not parse, a success) and whatever happens
    on the page while it waits, the run ends with the button's text as
    it was when the listener started, the button enabled, and the file
    input's value empty with no file selected. *)
Theorem upload_always_restores (during_fetch during_body : world → world)
    (r : upload_response) (btn fi ta : node) (w : world) (first : file)
    (rest : list file) :
  el_files (heap w fi) = Some (first :: rest) →
  let w' := upload_run during_fetch during_body r btn fi ta w in
  el_textContent (heap w' btn) = el_textContent (heap w btn)
  ∧ el_disabled (heap w' btn) = false
  ∧ el_value (heap w' fi) = []
  ∧ (∀ f l, el_files (heap w' fi) ≠ Some (f :: l)).
Proof.
  intros Hf w'. subst w'.
  destruct (upload_run_finally during_fetch during_body r btn fi ta w first rest Hf)
    as [w1 ->].
  apply (upload_finally_spec (Frame btn fi ta (el_textContent (heap w btn))) w1).
Qed.

Lemma upload_at_body_uninterrupted btn fi ta w n :
  el_value (heap (upload_at_body (fun x => x) (fun x => x) btn fi ta w) n)
  = el_value (heap w n).
Proof.
  unfold upload_at_body, fileInputChange_begin.
  destruct (el_files (heap w fi)) as [[|f l]|]; try reflexivity.
  cbn [fst]. unfold log; cbn [heap].
  destruct (decide (btn = n)) as [->|Hne].
  - by rewrite !heap_update_eq.
  - by rewrite !heap_update_ne.
Qed.

(** C1 (amended): when the response is successful and its body is an
    object whose [url] is a string, the run leaves in the textarea the
    url alone when the content it finds there is empty after trimming
    white space at both ends, and otherwise that content trimmed at
    both ends, a newline, and the url.  The content it finds is the one
    at the moment the body has been read; with nothing else happening
    meanwhile it is the content at the change event. *)
Theorem upload_success_appends (w0 : world) (during_fetch during_body : world → world)
    (btn fi ta : node) (w : world) (first : file) (rest : list file)
    (fields : list (jsstring * json)) (u : jsstring) :
  getElementById w0 (str "local-image-upload") = Some fi →
  getElementById w0 (str "image-urls") = Some ta →
  el_files (heap w fi) = Some (first :: rest) →
  own_property (str "url") fields = Some (JStr u) →
  let prior := el_value (heap (upload_at_body during_fetch during_body btn fi ta w) ta) in
  el_value
    (heap (upload_run during_fetch during_body
             (Response true (JsonParsed (JObj fields))) btn fi ta w) ta)
  = match trim prior with
    | [] => u
    | _ :: _ => trim prior ++ [10] ++ u
    end
  ∧ el_value (heap (upload_at_body (fun x => x) (fun x => x) btn fi ta w) ta)
    = el_value (heap w ta).
Proof.
  intros Hfi Hta Hf Hu prior. split; [|apply upload_at_body_uninterrupted].
  assert (Hne : ta ≠ fi).
  { eapply (getElementById_distinct w0); [|exact Hta|exact Hfi]. str_ne. }
  rewrite (upload_run_response _ _ _ _ _ _ _ _ first rest Hf).
  fold prior. unfold resume_json. cbn [negb get_property]. rewrite Hu.
  unfold append_url. cbn [urlsTextarea]. fold prior.
  destruct (trim prior) as [|c s];
    cbn [str_truthy value_assigned to_string json_to_string fmap option_fmap
         option_map];
    rewrite upload_finally_other by done; by rewrite heap_update_eq.
Qed.

(** C2 (amended): when the response status is a failure, the run logs
    the error and shows one alert, "Failed to upload image: " followed
    by a message.  The message is the [error] field of the body when
    that is a non-empty string (and the alert contains the field
    whenever it is a string); it is "Upload failed" when the field is
    the empty string, and when the body parses to a value other than
    [null] that has no [error] field; and when the body does not parse
    it is the message of the exception that [response.json()] raised.
    The textarea keeps the content it had when the body was read. *)
Theorem upload_failure_alerts (w0 : world) (during_fetch during_body : world → world)
    (btn fi ta : node) (w : world) (first : file) (rest : list file)
    (body : json_result) :
  getElementById w0 (str "local-image-upload") = Some fi →
  getElementById w0 (str "image-urls") = Some ta →
  el_files (heap w fi) = Some (first :: rest) →
  let wb := upload_at_body during_fetch during_body btn fi ta w in
  let w' := upload_run during_fetch during_body (Response false body) btn fi ta w in
  el_value (heap w' ta) = el_value (heap wb ta)
  ∧ ∃ err,
      trace w' = trace wb ++
        [ConsoleError (str "Upload error:") err;
         Alert (str "Failed to upload image: " ++ exn_message err)]
      ∧ (∀ fields e, body = JsonParsed (JObj fields) →
           own_property (str "error") fields = Some (JStr e) →
           includes e (str "Failed to upload image: " ++ exn_message err) = true
           ∧ (e ≠ [] → exn_message err = e)
           ∧ (e = [] → exn_message err = str "Upload failed"))
      ∧ (∀ v, body = JsonParsed v → get_property v (str "error") = inr None →
           exn_message err = str "Upload failed")
      ∧ (∀ x, body = JsonRejected x → err = x).
Proof.
  intros Hfi Hta Hf wb w'.
  assert (Hne : ta ≠ fi).
  { eapply (getElementById_distinct w0); [|exact Hta|exact Hfi]. str_ne. }
  subst w'. rewrite (upload_run_response _ _ _ _ _ _ _ _ first rest Hf). fold wb.
  assert (Hcatch : ∀ err,
    el_value (heap (upload_catch (Frame btn fi ta (el_textContent (heap w btn))) err wb) ta)
      = el_value (heap wb ta)
    ∧ trace (upload_catch (Frame btn fi ta (el_textContent (heap w btn))) err wb)
      = trace wb ++ [ConsoleError (str "Upload error:") err;
                     Alert (str "Failed to upload image: " ++ exn_message err)]).
  { intros err. unfold upload_catch. rewrite upload_finally_other by done.
    rewrite upload_finally_trace. unfold log; cbn [heap trace].
    by rewrite <- app_assoc. }
  unfold resume_json. destruct body as [x|v].
  - destruct (Hcatch x) as [Hv Ht]. split; [done|]. exists x.
    split; [done|]. repeat split; try discriminate. by intros ? [= ->].
  - cbn [negb]. destruct (get_property v (str "error")) as [err|error] eqn:Hp.
    + destruct (Hcatch err) as [Hv Ht]. split; [done|]. exists err.
      split; [done|]. split; [|split]; [| |discriminate].
      * intros fields e [= ->]. cbn in Hp. discriminate.
      * intros v' [= <-]. rewrite Hp. discriminate.
    + destruct (to_string (or_else error (Some (JStr (str "Upload failed")))))
        as [m|] eqn:Hm.
      * destruct (Hcatch (ScriptError m)) as [Hv Ht]. split; [done|].
        exists (ScriptError m). split; [done|]. split; [|split]; [| |discriminate].
        -- intros fields e [= ->]. cbn in Hp. intros He.
           assert (error = Some (JStr e)) as -> by congruence.
           cbn [exn_message]. unfold or_else in Hm. cbn [truthy] in Hm.
           destruct e as [|c e]; cbn [str_truthy to_string json_to_string] in Hm;
             injection Hm as <-.
           ++ split; [done|]. split; [by intros []|done].
           ++ split; [apply includes_app_r|]. split; [done|discriminate].
        -- intros v' [= <-]. rewrite Hp. intros [= ->].
           unfold or_else in Hm. cbn in Hm. by injection Hm as <-.
      * destruct (Hcatch ToPrimitiveTypeError) as [Hv Ht]. split; [done|].
        exists ToPrimitiveTypeError. split; [done|].
        split; [|split]; [| |discriminate].
        -- intros fields e [= ->]. cbn in Hp. intros He.
           assert (error = Some (JStr e)) as -> by congruence.
           unfold or_else in Hm. cbn [truthy] in Hm.
           by destruct e; cbn in Hm.
        -- intros v' [= <-]. rewrite Hp. intros [= ->].
           unfold or_else in Hm. by cbn in Hm.
Qed.

End UploadProperties.

(** The two uploads the specification gives as examples. *)
Example upload_into_empty_textarea :
  el_value
    (heap (upload_run (E := sample_engine) (fun x => x) (fun x => x)
             (Response true (JsonParsed (JObj [(str "url", JStr (str "https://x/y.png"))])))
             8%nat 9%nat 10%nat (loaded (sample_page None false)))
       10%nat)
  = str "https://x/y.png".
Proof. by vm_compute. Qed.

Example upload_after_a :
  el_value
    (heap (upload_run (E := sample_engine) (fun x => x) (fun x => x)
             (Response true (JsonParsed (JObj [(str "url", JStr (str "https://x/y.png"))])))
             8%nat 9%nat 10%nat
             (update 10%nat (set_value (str "a")) (loaded (sample_page None false))))
       10%nat)
  = str "a" ++ [10] ++ str "https://x/y.png".
Proof. by vm_compute. Qed.

(** C1 as written fails when the old content starts with white space:
    with " a" in the textarea the run leaves "a", a newline and the
    url, not " a", a newline and the url. *)
Lemma upload_success_trims_leading :
  let w := update 10%nat (set_value (str " a")) (loaded (sample_page None false)) in
  let url := str "https://x/y.png" in
  let w' := upload_run (E := sample_engine) (fun x => x) (fun x => x)
              (Response true (JsonParsed (JObj [(str "url", JStr url)])))
              8%nat 9%nat 10%nat w in
  el_value (heap w' 10%nat) = str "a" ++ [10] ++ url
  ∧ spec_appended (el_value (heap w 10%nat)) url = str " a" ++ [10] ++ url
  ∧ el_value (heap w' 10%nat) ≠ spec_appended (el_value (heap w 10%nat)) url.
Proof. vm_compute. repeat split; discriminate. Qed.

(** C2 as written fails when the body of the failing response is not
    JSON: no alert contains the generic "Upload failed"; the alert
    carries the message of the parser's exception. *)
Lemma upload_failure_unparseable_body :
  let w := loaded (sample_page None false) in
  let w' := upload_run (E := sample_engine) (fun x => x) (fun x => x)
              (Response false
                 (JsonRejected
                    (HostError (str "Unexpected token < in JSON at position 0"))))
              8%nat 9%nat 10%nat w in
  trace w'
  = [Fetch (str "/api/upload") (str "POST") [(str "file", sample_file)];
     ConsoleError (str "Upload error:")
       (HostError (str "Unexpected token < in JSON at position 0"));
     Alert (str "Failed to upload image: Unexpected token < in JSON at position 0")]
  ∧ ¬ alert_contains (str "Upload failed") (trace w').
Proof.
  cbv zeta. split; [by vm_compute|].
  intros (m & Hin & Hinc). vm_compute in Hin.
  destruct Hin as [H|[H|[H|[]]]]; try discriminate H.
  injection H as <-. vm_compute in Hinc. discriminate Hinc.
Qed.

(** * Concrete runs on the sample page *)

(** C5 as written fails on a danger button whose [data-confirm]
    attribute is present and empty: the prompt shows the generic
    message, not the attribute. *)
Lemma click_danger_empty_attribute :
  let w := loaded (sample_page None false) in
  let r := dispatchEvent (fun _ => true) (click_on 11%nat) w in
  el_attributes (heap w 11%nat) !! str "data-confirm" = Some []
  ∧ confirms (trace (fst (fst r))) = [Confirm generic_confirm true]
  ∧ confirms (trace (fst (fst r)))
    ≠ [Confirm (spec_confirm_message (heap w 11%nat)) true].
Proof. vm_compute. repeat split; discriminate. Qed.

Lemma upload_success_appends_witness :
  el_value
    (heap (upload_run (E := sample_engine) (fun x => x) (fun x => x)
             (Response true (JsonParsed (JObj [(str "url", JStr (str "https://x/y.png"))])))
             8%nat 9%nat 10%nat
             (update 10%nat (set_value (str "a ")) (loaded (sample_page None false))))
       10%nat)
  = str "a" ++ [10] ++ str "https://x/y.png".
Proof.
  apply (upload_success_appends (E := sample_engine) (sample_page None false)
           (fun x => x) (fun x => x) 8%nat 9%nat 10%nat
           (update 10%nat (set_value (str "a ")) (loaded (sample_page None false)))
           sample_file [] [(str "url", JStr (str "https://x/y.png"))]
           (str "https://x/y.png"));
    reflexivity.
Defined.

Lemma upload_failure_alerts_witness :
  alert_contains (str "too large")
    (trace (upload_run (E := sample_engine) (fun x => x) (fun x => x)
              (Response false (JsonParsed (JObj [(str "error", JStr (str "too large"))])))
              8%nat 9%nat 10%nat (loaded (sample_page None false)))).
Proof.
  destruct (upload_failure_alerts (E := sample_engine) (sample_page None false)
              (fun x => x) (fun x => x) 8%nat 9%nat 10%nat
              (loaded (sample_page None false)) sample_file []
              (JsonParsed (JObj [(str "error", JStr (str "too large"))]))
              eq_refl eq_refl eq_refl) as (_ & err & Ht & He & _).
  destruct (He _ (str "too large") eq_refl eq_refl) as [Hinc _].
  eexists. split; [|exact Hinc].
  rewrite Ht. apply in_or_app. right. right. left. reflexivity.
Defined.

Lemma upload_always_restores_witness :
  let w := loaded (sample_page None false) in
  let w' := upload_run (E := sample_engine) (fun x => x) (fun x => x)
              (NetworkError (HostError (str "Failed to fetch")))
              8%nat 9%nat 10%nat w in
  el_textContent (heap w' 8%nat) = str "Upload"
  ∧ el_disabled (heap w' 8%nat) = false
  ∧ el_value (heap w' 9%nat) = []
  ∧ (∀ f l, el_files (heap w' 9%nat) ≠ Some (f :: l)).
Proof.
  apply (upload_always_restores (E := sample_engine) (fun x => x) (fun x => x)
           (NetworkError (HostError (str "Failed to fetch")))
           8%nat 9%nat 10%nat (loaded (sample_page None false)) sample_file []).
  reflexivity.
Defined.


Lemma click_danger_confirms_witness :
  ∃ message,
    message = str "Delete image?"
    ∧ let r := dispatchEvent (fun _ => false) (click_on 6%nat)
                 (loaded (sample_page None false)) in
      confirms (trace (fst (fst r))) = [Confirm message false]
      ∧ ev_defaultPrevented (snd (fst r)) = true.
Proof.
  destruct (click_danger_confirms (fun _ => false) (sample_page None false)
              (loaded (sample_page None false)) 6%nat eq_refl)
    as (message & Hm & _ & Hr).
  - apply (bool_decide_unpack _). vm_compute. exact I.
  - apply (bool_decide_unpack _). vm_compute. exact I.
  - reflexivity.
  - exists message. split; [|exact Hr].
    apply Hm; [reflexivity|discriminate].
Defined.


Lemma toggle_twice_witness :
  let w := loaded (sample_page (Some (str "light")) false) in
  let w1 := fst (fst (dispatchEvent (fun _ => true) (click_on 0%nat) w)) in
  let w2 := fst (fst (dispatchEvent (fun _ => true) (click_on 0%nat) w1)) in
  body_classList w2 = body_classList w
  ∧ localStorage w2 !! str "theme" = Some (str "light").
Proof.
  destruct (toggle_twice (fun _ => true) (fun _ => true)
              (sample_page (Some (str "light")) false)
              (loaded (sample_page (Some (str "light")) false)) 0%nat
              eq_refl eq_refl eq_refl) as [Hc Hs].
  split; [exact Hc|]. cbv zeta. rewrite Hs. rewrite lookup_insert_eq.
  reflexivity.
Defined.

Lemma change_without_file_witness :
  let w := update 9%nat (set_value []) (loaded (sample_page None false)) in
  el_files (heap w 9%nat) = Some []
  ∧ dispatchEvent (fun _ => true) (change_on 9%nat) w = (w, change_on 9%nat, []).
Proof.
  split; [reflexivity|].
  apply (change_without_file (fun _ => true) (sample_page None false)
           (update 9%nat (set_value []) (loaded (sample_page None false))) 9%nat);
    [reflexivity|reflexivity|reflexivity|right; reflexivity].
Defined.

(** * Further properties *)

(** ** Startup *)

(** X1: the startup listener ends normally exactly when the document
    has the element [theme-toggle].  Without it, it ends with the
    [TypeError] of calling [addEventListener] on [null], after the
    auto-submit, loading-state and confirmation binders have added
    their listeners and before the upload binder could add any. *)
Theorem startup_outcome w :
  (snd (onDOMContentLoaded w) = None
   ↔ getElementById w (str "theme-toggle") ≠ None)
  ∧ (getElementById w (str "theme-toggle") = None →
     snd (onDOMContentLoaded w)
       = Some (NullPropertyTypeError (str "addEventListener"))
     ∧ listeners (loaded w)
       = listeners w ++ autoSubmit_regs w
         ++ by_id w (str "main-form") Submit MainFormSubmit ++ confirm_regs w).
Proof.
  split.
  - unfold onDOMContentLoaded, initThemeToggle.
    rewrite initAutoSubmit_register, initLoadingStates_register,
      initConfirmations_register, !getElementById_register.
    destruct (getElementById w (str "theme-toggle")) as [t|]; cbn [snd].
    + split; [discriminate|done].
    + split; [discriminate|]. by intros [].
  - intros Ht. split.
    + unfold onDOMContentLoaded, initThemeToggle.
      rewrite initAutoSubmit_register, initLoadingStates_register,
        initConfirmations_register, !getElementById_register.
      by rewrite Ht.
    + rewrite listeners_loaded, startup_regs_eq. unfold late_regs.
      by rewrite Ht, app_nil_r.
Qed.

(** X2: startup changes no element, writes nothing to local storage and
    makes no host call; it keeps the listeners that were there, and of
    the body's classes it can only add [light-theme]. *)
Theorem startup_frame w :
  heap (loaded w) = heap w
  ∧ doc (loaded w) = doc w
  ∧ localStorage (loaded w) = localStorage w
  ∧ trace (loaded w) = trace w
  ∧ (∃ added, listeners (loaded w) = listeners w ++ added)
  ∧ (∀ c, c ∈ body_classList w → c ∈ body_classList (loaded w))
  ∧ (∀ c, c ≠ light_theme → c ∈ body_classList (loaded w) → c ∈ body_classList w).
Proof.
  rewrite loaded_eq. repeat split; try reflexivity.
  - by exists (startup_regs w).
  - intros c Hc. cbn. unfold startup_classList.
    destruct (bool_decide _ || _); [|done]. apply elem_of_union. by left.
  - intros c Hne. cbn. unfold startup_classList.
    destruct (bool_decide _ || _); [|done].
    intros [H|H]%elem_of_union; [done|]. by apply elem_of_singleton in H.
Qed.

(** ** No listener twice *)

Lemma by_id_NoDup w i t h : NoDup (by_id w i t h).
Proof.
  unfold by_id. destruct (getElementById w i); [|constructor].
  apply NoDup_singleton.
Qed.

Lemma elem_of_by_id w i t h r :
  r ∈ by_id w i t h → ∃ n, getElementById w i = Some n ∧ r = (n, t, h).
Proof.
  unfold by_id. destruct (getElementById w i) as [n|]; [|by intros ?%elem_of_nil].
  intros ->%list_elem_of_singleton. eauto.
Qed.

Lemma by_id_disjoint w i j t t' h h' r :
  r ∈ by_id w i t h → i ≠ j → r ∉ by_id w j t' h'.
Proof.
  intros Hi Hij Hr.
  apply elem_of_by_id in Hi as (n & Hn & ->).
  apply elem_of_by_id in Hr as (m & Hm & Heq).
  injection Heq as -> _ _. eauto using getElementById_inj.
Qed.

Ltac by_id_apart Hr :=
  first [ apply (by_id_disjoint _ _ _ _ _ _ _ _ Hr); str_ne
        | let H := fresh in
          intros [H|H]%elem_of_app; revert H; by_id_apart Hr ].

Lemma autoSubmit_regs_NoDup w : NoDup (autoSubmit_regs w).
Proof.
  unfold autoSubmit_regs, autoSubmitInputs. cbn [flat_map].
  rewrite app_nil_r.
  apply NoDup_app; split; [|split; [|apply by_id_NoDup]].
  - apply NoDup_app; split; [apply by_id_NoDup|split].
    + intros r Hr. by_id_apart Hr.
    + apply NoDup_app; split; [apply by_id_NoDup|split; [|apply by_id_NoDup]].
      intros r Hr. by_id_apart Hr.
  - intros r [Hr|[Hr|Hr]%elem_of_app]%elem_of_app; by_id_apart Hr.
Qed.

Lemma autoSubmit_regs_kind w :
  Forall (fun r => handler_kind (snd r) = 0%nat) (autoSubmit_regs w).
Proof.
  unfold autoSubmit_regs, autoSubmitInputs, by_id. cbn [flat_map].
  repeat (apply Forall_app; split);
    repeat match goal with |- context [getElementById w ?i] =>
      destruct (getElementById w i) end;
    repeat constructor.
Qed.

Lemma confirm_regs_kind w :
  Forall (fun r => handler_kind (snd r) = 2%nat) (confirm_regs w).
Proof.
  unfold confirm_regs. induction (querySelectorAll_button_danger w); by constructor.
Qed.

Lemma confirm_regs_NoDup w : NoDup (doc w) → NoDup (confirm_regs w).
Proof.
  intros H. apply querySelectorAll_NoDup in H. unfold confirm_regs.
  induction H as [|b l Hb _ IH]; cbn [map]; constructor; [|done].
  intros Hin. apply Hb. clear -Hin.
  induction l as [|c l IH]; [by apply elem_of_nil in Hin|].
  cbn [map] in Hin. apply elem_of_cons in Hin as [[= ->]|Hin].
  - by left.
  - right. auto.
Qed.

Lemma late_regs_kind w :
  Forall (fun r => (3 <= handler_kind (snd r))%nat) (late_regs w).
Proof.
  unfold late_regs, upload_regs.
  repeat match goal with |- context [getElementById w ?i] =>
    destruct (getElementById w i) end;
  repeat constructor; cbn; lia.
Qed.

Lemma late_regs_NoDup w : NoDup (late_regs w).
Proof.
  unfold late_regs, upload_regs.
  repeat match goal with |- context [getElementById w ?i] =>
    destruct (getElementById w i) end;
  repeat (constructor; [rewrite ?elem_of_cons; intros H;
    repeat (destruct H as [H|H]; [discriminate H|]); by apply elem_of_nil in H|]);
  constructor.
Qed.

Lemma kinds_apart (l k : list (node * event_type * handler)) (P Q : nat → Prop) :
  Forall (fun r => P (handler_kind (snd r))) l →
  Forall (fun r => Q (handler_kind (snd r))) k →
  (∀ n, P n → Q n → False) →
  ∀ r, r ∈ l → r ∉ k.
Proof.
  intros Hl Hk Hpq r Hr Hr'.
  rewrite Forall_forall in Hl, Hk. eauto.
Qed.

(** X3: when the document lists no element twice, startup registers no
    listener twice: the table it builds has no duplicate entry, so no
    listener of the script runs twice for one event. *)
Theorem startup_no_duplicate_listener w0 :
  listeners w0 = [] → NoDup (doc w0) → NoDup (listeners (loaded w0)).
Proof.
  intros Hl Hnd. rewrite listeners_loaded, Hl, startup_regs_eq. cbn [app].
  pose proof (autoSubmit_regs_kind w0) as HA.
  pose proof (confirm_regs_kind w0) as HC.
  pose proof (late_regs_kind w0) as HL.
  assert (HM : Forall (fun r => handler_kind (snd r) = 1%nat)
                 (by_id w0 (str "main-form") Submit MainFormSubmit)).
  { unfold by_id. destruct (getElementById _ _); repeat constructor. }
  apply NoDup_app; split; [apply autoSubmit_regs_NoDup|split].
  - apply (kinds_apart _ _ (fun n => n = 0%nat) (fun n => (1 <= n)%nat)); [done| |lia].
    repeat (apply Forall_app; split);
      (eapply Forall_impl; [eassumption|cbn; intros; lia]).
  - apply NoDup_app; split; [apply by_id_NoDup|split].
    + apply (kinds_apart _ _ (fun n => n = 1%nat) (fun n => (2 <= n)%nat)); [done| |lia].
      repeat (apply Forall_app; split);
        (eapply Forall_impl; [eassumption|cbn; intros; lia]).
    + apply NoDup_app; split; [by apply confirm_regs_NoDup|split].
      * apply (kinds_apart _ _ (fun n => n = 2%nat) (fun n => (3 <= n)%nat)); [done|done|lia].
      * apply late_regs_NoDup.
Qed.

(** ** The upload binder registers both listeners or none *)

(** X4: the upload binder registers its two listeners only when the
    upload button, the file input and the textarea are all in the
    document; when one of the three is missing, the table after startup
    holds no upload listener at all. *)
Theorem upload_binder_all_or_nothing w0 :
  listeners w0 = [] →
  (getElementById w0 (str "upload-image-btn") = None
   ∨ getElementById w0 (str "local-image-upload") = None
   ∨ getElementById w0 (str "image-urls") = None →
   Forall (fun r => is_upload_handler (snd r) = false) (listeners (loaded w0)))
  ∧ (∀ t btn fi ta,
       getElementById w0 (str "theme-toggle") = Some t →
       getElementById w0 (str "upload-image-btn") = Some btn →
       getElementById w0 (str "local-image-upload") = Some fi →
       getElementById w0 (str "image-urls") = Some ta →
       (btn, Click, UploadBtnClick fi) ∈ listeners (loaded w0)
       ∧ (fi, Change, FileInputChange btn fi ta) ∈ listeners (loaded w0)).
Proof.
  intros Hl. rewrite listeners_loaded, Hl, startup_regs_eq. cbn [app]. split.
  - intros Hmiss.
    apply Forall_app; split; [|apply Forall_app; split; [|apply Forall_app; split]].
    + eapply Forall_impl; [apply autoSubmit_regs_kind|].
      intros [[n t] h]; cbn. by destruct h.
    + unfold by_id. destruct (getElementById w0 (str "main-form"));
        by repeat constructor.
    + eapply Forall_impl; [apply confirm_regs_kind|].
      intros [[n t] h]; cbn. by destruct h.
    + unfold late_regs, upload_regs.
      destruct (getElementById w0 (str "theme-toggle")); [|constructor].
      destruct Hmiss as [-> | [-> | ->]];
        repeat match goal with |- context [getElementById w0 ?i] =>
          destruct (getElementById w0 i) end;
        by repeat constructor.
  - intros t btn fi ta Ht Hb Hf Hta. unfold late_regs, upload_regs.
    rewrite Ht, Hb, Hf, Hta. rewrite !elem_of_app, !elem_of_cons. auto 10.
Qed.

(** ** Clicks *)






(** ** A field outside any form *)

(** X16: after startup, a change event on an auto-submit field that has
    no form owner submits nothing: the listener reads [submit] of
    [null], the [TypeError] escapes it and is the only thing reported;
    the page is otherwise left as it was. *)
Theorem change_without_form (user : jsstring → bool) (w0 w : world)
    (i : jsstring) (n : node) :
  listeners w0 = [] →
  listeners w = listeners (loaded w0) →
  i ∈ autoSubmitInputs →
  getElementById w0 i = Some n →
  el_form (heap w n) = None →
  dispatchEvent user (change_on n) w
  = (log (Uncaught (NullPropertyTypeError (str "submit"))) w, change_on n, []).
Proof.
  intros Hl Hw Hi Hn Hf. unfold dispatchEvent, listeners_for. rewrite Hw.
  fold (listeners_for (ev_target (change_on n)) (ev_type (change_on n)) (loaded w0)).
  cbn [ev_target ev_type change_on].
  rewrite (change_listeners_autoSubmit w0 i n Hl Hi Hn).
  cbn [run_listeners run_listeners_with run_handler run_handler_with]. unfold autoSubmitChange.
  cbn [ev_target change_on]. rewrite Hf. reflexivity.
Qed.

(** ** What the loading state leaves alone *)


(** ** The listener table is fixed at startup *)

(** X19: no listener of the script adds or removes a listener: an event
    of any kind on any element, and the end of an upload, leave the
    listener table as it was. *)
Theorem listeners_fixed (user : jsstring → bool) (e : event) (w : world) :
  listeners (fst (fst (dispatchEvent user e w))) = listeners w
  ∧ ∀ (E : engine) (k : upload_frame) (ok : bool) (body : json_result)
      (err : exn),
      listeners (resume_json k ok body w) = listeners w
      ∧ listeners (upload_catch k err w) = listeners w.
Proof.
  split; [apply run_listeners_listeners|].
  intros E k ok body err. split; [|reflexivity].
  unfold resume_json. destruct body as [x|v]; [reflexivity|].
  destruct (negb ok).
  - destruct (get_property v (str "error")); [reflexivity|].
    by destruct (to_string _).
  - destruct (get_property v (str "url")) as [?|url]; [reflexivity|].
    unfold append_url.
    by destruct (if str_truthy _ then _ else _).
Qed.

(** ** Theme: one click, many clicks, reload *)

(** X13: after startup, one click on the theme toggle flips the
    light-theme class of the body and no other class, and stores under
    [theme] the value that matches the class after the click ("light"
    when the class is now present, "dark" when it is not); no other
    stored entry changes. *)
Theorem toggle_once (user : jsstring → bool) (w0 w : world) (t : node) :
  listeners w0 = [] →
  getElementById w0 (str "theme-toggle") = Some t →
  listeners w = listeners (loaded w0) →
  let w' := fst (fst (dispatchEvent user (click_on t) w)) in
  (light_theme ∈ body_classList w' ↔ light_theme ∉ body_classList w)
  ∧ (∀ c, c ≠ light_theme → c ∈ body_classList w' ↔ c ∈ body_classList w)
  ∧ localStorage w' !! str "theme"
    = Some (if bool_decide (light_theme ∈ body_classList w')
            then str "light" else str "dark")
  ∧ (∀ key, key ≠ str "theme" → localStorage w' !! key = localStorage w !! key).
Proof.
  intros Hl Ht Hw w'.
  destruct (click_toggle user w0 w t Hl Ht Hw) as (Hc & Hs & _).
  fold w' in Hc, Hs. rewrite Hc, Hs. unfold themeClick.
  cbn [body_classList localStorage set_body_classList set_localStorage].
  unfold classList_toggle. split; [|split; [|split]].
  - destruct (decide (light_theme ∈ body_classList w)); set_solver.
  - intros c Hne. destruct (decide (light_theme ∈ body_classList w)); set_solver.
  - by rewrite lookup_insert_eq.
  - intros key Hk. by rewrite lookup_insert_ne.
Qed.

Lemma click_times_listeners user n t w :
  listeners (click_times user n t w) = listeners w.
Proof.
  revert w. induction n as [|n IH]; intros w; [done|].
  cbn [click_times]. rewrite IH. apply run_listeners_listeners.
Qed.

Lemma click_times_S user n t w :
  click_times user (S n) t w
  = fst (fst (dispatchEvent user (click_on t) (click_times user n t w))).
Proof.
  revert w. induction n as [|n IH]; intros w; [done|].
  cbn [click_times] in *. by rewrite IH.
Qed.

(** X14: after startup, [n] clicks on the theme toggle leave the body
    with the class list it had when [n] is even, and with the
    light-theme class flipped when [n] is odd; after at least one click
    the stored theme matches the class. *)
Theorem toggle_many (user : jsstring → bool) (w0 w : world) (t : node) (n : nat) :
  listeners w0 = [] →
  getElementById w0 (str "theme-toggle") = Some t →
  listeners w = listeners (loaded w0) →
  let w' := click_times user n t w in
  body_classList w'
    = (if Nat.even n then body_classList w
       else classList_toggle light_theme (body_classList w))
  ∧ (n ≠ 0%nat →
     localStorage w' !! str "theme"
     = Some (if bool_decide (light_theme ∈ body_classList w')
             then str "light" else str "dark")).
Proof.
  intros Hl Ht Hw. cbv zeta. induction n as [|n [IHc _]].
  - split; [done|]. by intros [].
  - rewrite click_times_S.
    assert (Hw' : listeners (click_times user n t w) = listeners (loaded w0))
      by (by rewrite click_times_listeners).
    destruct (click_toggle user w0 _ t Hl Ht Hw') as (Hc & Hs & _).
    rewrite Hc, Hs. unfold themeClick.
    cbn [body_classList localStorage set_body_classList set_localStorage].
    rewrite IHc, Nat.even_succ, <- Nat.negb_even.
    split; [|by rewrite lookup_insert_eq].
    destruct (Nat.even n); cbn [negb]; [done|apply classList_toggle_twice].
Qed.

(** X15: the choice survives a reload.  Take the entries stored after a
    click on the toggle, and a freshly served page (body without the
    light-theme class) that finds them in local storage: after its
    startup the body has the light-theme class exactly when the body
    had it after the click, whatever the OS preference is. *)
Theorem toggle_then_reload (user : jsstring → bool) (w0 w : world) (t : node)
    (served : world) :
  listeners w0 = [] →
  getElementById w0 (str "theme-toggle") = Some t →
  listeners w = listeners (loaded w0) →
  let w' := fst (fst (dispatchEvent user (click_on t) w)) in
  localStorage served = localStorage w' →
  light_theme ∉ body_classList served →
  light_theme ∈ body_classList (loaded served) ↔ light_theme ∈ body_classList w'.
Proof.
  intros Hl Ht Hw w' Hst Hserved.
  destruct (click_toggle user w0 w t Hl Ht Hw) as (Hc & Hs & _).
  fold w' in Hc, Hs.
  assert (Hth : localStorage served !! str "theme"
                = Some (if bool_decide (light_theme ∈ body_classList w')
                        then str "light" else str "dark")).
  { rewrite Hst, Hs, Hc. unfold themeClick.
    cbn [body_classList localStorage set_body_classList set_localStorage].
    by rewrite lookup_insert_eq. }
  rewrite body_classList_loaded. unfold startup_classList. rewrite Hth.
  destruct (bool_decide (light_theme ∈ body_classList w')) eqn:Hb.
  - apply bool_decide_eq_true in Hb.
    rewrite bool_decide_eq_true_2 by done. cbn [orb]. set_solver.
  - apply bool_decide_eq_false in Hb.
    rewrite bool_decide_eq_false_2 by (intros [= H]; vm_compute in H; discriminate H).
    cbn. set_solver.
Qed.

(** ** Upload: the request *)


(** ** Upload: the other ways a run can end *)

Section UploadEndings.
Context {E : engine}.

(** X7: when the request itself fails ([fetch] rejects), the run logs
    the error and shows one alert, "Failed to upload image: " followed
    by the message of the rejection; it does not wait for any body and
    leaves every value on the page, but the file input's, as it was
    when [fetch] settled. *)
Theorem upload_network_error (during_fetch during_body : world → world)
    (btn fi ta : node) (w : world) (first : file) (rest : list file) (err : exn) :
  el_files (heap w fi) = Some (first :: rest) →
  let wf := upload_at_body during_fetch (fun x => x) btn fi ta w in
  let w' := upload_run during_fetch during_body (NetworkError err) btn fi ta w in
  trace w' = trace wf ++
    [ConsoleError (str "Upload error:") err;
     Alert (str "Failed to upload image: " ++ exn_message err)]
  ∧ ∀ n, n ≠ fi → el_value (heap w' n) = el_value (heap wf n).
Proof.
  intros Hf wf w'. subst wf w'.
  unfold upload_run, upload_at_body, fileInputChange_begin. rewrite Hf.
  cbn [fst resume_fetch]. unfold upload_catch. split.
  - rewrite upload_finally_trace. unfold log; cbn [trace]. by rewrite <- app_assoc.
  - intros n Hn. by rewrite upload_finally_other.
Qed.


(** X9: the script does not check that the body has a [url]: after a
    successful response whose body is an object without that field, the
    textarea receives the text "undefined", alone or on a new line
    after the old content trimmed at both ends. *)
Theorem upload_success_without_url (w0 : world)
    (during_fetch during_body : world → world) (btn fi ta : node) (w : world)
    (first : file) (rest : list file) (fields : list (jsstring * json)) :
  getElementById w0 (str "local-image-upload") = Some fi →
  getElementById w0 (str "image-urls") = Some ta →
  el_files (heap w fi) = Some (first :: rest) →
  own_property (str "url") fields = None →
  let prior := el_value (heap (upload_at_body during_fetch during_body btn fi ta w) ta) in
  el_value
    (heap (upload_run during_fetch during_body
             (Response true (JsonParsed (JObj fields))) btn fi ta w) ta)
  = match trim prior with
    | [] => str "undefined"
    | _ :: _ => trim prior ++ [10] ++ str "undefined"
    end.
Proof.
  intros Hfi Hta Hf Hu prior.
  assert (Hne : ta ≠ fi).
  { eapply (getElementById_distinct w0); [|exact Hta|exact Hfi]. str_ne. }
  rewrite (upload_run_response _ _ _ _ _ _ _ _ first rest Hf).
  fold prior. unfold resume_json. cbn [negb get_property]. rewrite Hu.
  unfold append_url. cbn [urlsTextarea]. fold prior.
  destruct (trim prior) as [|c s];
    cbn [str_truthy value_assigned to_string json_to_string fmap option_fmap
         option_map];
    rewrite upload_finally_other by done; by rewrite heap_update_eq.
Qed.

(** X10: a body that parses to [null] makes the run fail on reading a
    property of [null], with a success status ([url]) as with a failure
    status ([error]): the alert shows "Failed to upload image: "
    followed by the engine's message for that [TypeError], and the
    textarea keeps its content. *)
Theorem upload_null_body (w0 : world) (during_fetch during_body : world → world)
    (btn fi ta : node) (w : world) (first : file) (rest : list file) (ok : bool) :
  getElementById w0 (str "local-image-upload") = Some fi →
  getElementById w0 (str "image-urls") = Some ta →
  el_files (heap w fi) = Some (first :: rest) →
  let wb := upload_at_body during_fetch during_body btn fi ta w in
  let w' := upload_run during_fetch during_body (Response ok (JsonParsed JNull))
              btn fi ta w in
  let prop := if ok then str "url" else str "error" in
  trace w' = trace wb ++
    [ConsoleError (str "Upload error:") (NullPropertyTypeError prop);
     Alert (str "Failed to upload image: " ++ null_read_message prop)]
  ∧ el_value (heap w' ta) = el_value (heap wb ta).
Proof.
  intros Hfi Hta Hf wb w' prop. subst w' prop.
  assert (Hne : ta ≠ fi).
  { eapply (getElementById_distinct w0); [|exact Hta|exact Hfi]. str_ne. }
  rewrite (upload_run_response _ _ _ _ _ _ _ _ first rest Hf). fold wb.
  unfold resume_json.
  destruct ok; cbn [negb get_property]; unfold upload_catch;
    rewrite upload_finally_trace, upload_finally_other by done;
    unfold log; cbn [trace heap exn_message]; by rewrite <- app_assoc.
Qed.


End UploadEndings.

(** ** The textarea stays a clean list of lines *)

Lemma trimStart_clean s : starts_clean s = true → trimStart s = s.
Proof.
  destruct s as [|c s]; [done|]. cbn. by intros ->%negb_true_iff.
Qed.

Lemma trimEnd_clean s : ends_clean s = true → trimEnd s = s.
Proof.
  unfold ends_clean, trimEnd. intros H.
  by rewrite trimStart_clean, rev_involutive.
Qed.

Lemma trim_clean s : starts_clean s = true → ends_clean s = true → trim s = s.
Proof.
  intros Hs He. unfold trim. by rewrite trimEnd_clean, trimStart_clean.
Qed.

Lemma starts_clean_trimStart s : starts_clean (trimStart s) = true.
Proof.
  induction s as [|c s IH]; [done|]. cbn [trimStart].
  destruct (is_js_whitespace c) eqn:Hc; [done|]. cbn. by rewrite Hc.
Qed.

Lemma starts_clean_app a b : a ≠ [] → starts_clean (a ++ b) = starts_clean a.
Proof. by destruct a. Qed.

Lemma ends_clean_app a b : b ≠ [] → ends_clean (a ++ b) = ends_clean b.
Proof.
  intros Hb. unfold ends_clean. rewrite rev_app_distr.
  apply starts_clean_app. destruct b as [|c b]; [done|].
  cbn. by destruct (rev b).
Qed.

Lemma trimStart_suffix s : ∃ pre, s = pre ++ trimStart s.
Proof.
  induction s as [|c s [pre IH]]; [by exists []|]. cbn [trimStart].
  destruct (is_js_whitespace c).
  - exists (c :: pre). cbn. by rewrite <- IH.
  - by exists [].
Qed.

Lemma ends_clean_trimStart s : ends_clean s = true → ends_clean (trimStart s) = true.
Proof.
  intros H. destruct (trimStart_suffix s) as [pre Hs].
  destruct (trimStart s) as [|c r] eqn:Ht; [done|].
  rewrite Hs in H. by rewrite ends_clean_app in H.
Qed.

Lemma trim_is_clean s :
  starts_clean (trim s) = true ∧ ends_clean (trim s) = true.
Proof.
  unfold trim. split; [apply starts_clean_trimStart|].
  apply ends_clean_trimStart. unfold ends_clean, trimEnd.
  rewrite rev_involutive. apply starts_clean_trimStart.
Qed.

Section UploadLines.
Context {E : engine}.

(** X11: the textarea stays clean.  After a successful upload whose url
    is not empty and has no white space at either end, the content of
    the textarea is not empty and has no white space at either end: it
    is a fixed point of the trimming the next upload will apply. *)
Theorem upload_keeps_textarea_trimmed (w0 : world)
    (during_fetch during_body : world → world) (btn fi ta : node) (w : world)
    (first : file) (rest : list file) (fields : list (jsstring * json))
    (u : jsstring) :
  getElementById w0 (str "local-image-upload") = Some fi →
  getElementById w0 (str "image-urls") = Some ta →
  el_files (heap w fi) = Some (first :: rest) →
  own_property (str "url") fields = Some (JStr u) →
  u ≠ [] → starts_clean u = true → ends_clean u = true →
  let content :=
    el_value
      (heap (upload_run during_fetch during_body
               (Response true (JsonParsed (JObj fields))) btn fi ta w) ta) in
  content ≠ [] ∧ trim content = content.
Proof.
  intros Hfi Hta Hf Hu Hne Hs He content.
  assert (Hd : ta ≠ fi).
  { eapply (getElementById_distinct w0); [|exact Hta|exact Hfi]. str_ne. }
  subst content. rewrite (upload_run_response _ _ _ _ _ _ _ _ first rest Hf).
  unfold resume_json. cbn [negb get_property]. rewrite Hu.
  unfold append_url. cbn [urlsTextarea].
  set (prior := el_value (heap (upload_at_body _ _ _ _ _ _) ta)).
  destruct (trim_is_clean prior) as [Hps _].
  destruct (trim prior) as [|c s] eqn:Hp;
    cbn [str_truthy value_assigned to_string json_to_string fmap option_fmap
         option_map];
    rewrite upload_finally_other by done;
    rewrite heap_update_eq; cbn [el_value set_value].
  - split; [done|by apply trim_clean].
  - split; [done|]. apply trim_clean.
    + by rewrite starts_clean_app.
    + rewrite ends_clean_app by (by destruct u).
      by rewrite ends_clean_app.
Qed.

(** X12: two uploads in a row give two lines.  Into a textarea that is
    empty or holds only white space, a successful upload of [u1] (not
    empty, no white space at either end) followed, once a file has been
    chosen again, by a successful upload of [u2] leaves [u1], a newline,
    [u2]. *)
Theorem upload_twice_two_lines (w0 : world) (btn fi ta : node) (w again : world)
    (first1 first2 : file) (rest1 rest2 : list file) (u1 u2 : jsstring) :
  getElementById w0 (str "local-image-upload") = Some fi →
  getElementById w0 (str "image-urls") = Some ta →
  el_files (heap w fi) = Some (first1 :: rest1) →
  trim (el_value (heap w ta)) = [] →
  u1 ≠ [] → starts_clean u1 = true → ends_clean u1 = true →
  let w1 := upload_run (fun x => x) (fun x => x)
              (Response true (JsonParsed (JObj [(str "url", JStr u1)]))) btn fi ta w in
  el_value (heap again ta) = el_value (heap w1 ta) →
  el_files (heap again fi) = Some (first2 :: rest2) →
  let w2 := upload_run (fun x => x) (fun x => x)
              (Response true (JsonParsed (JObj [(str "url", JStr u2)]))) btn fi ta again in
  el_value (heap w1 ta) = u1
  ∧ el_value (heap w2 ta) = u1 ++ [10] ++ u2.
Proof.
  intros Hfi Hta Hf1 Hblank Hne Hs He w1 Hagain Hf2 w2.
  assert (Hd : ta ≠ fi).
  { eapply (getElementById_distinct w0); [|exact Hta|exact Hfi]. str_ne. }
  assert (Hrun : ∀ x first rest u,
    el_files (heap x fi) = Some (first :: rest) →
    el_value (heap (upload_run (fun x => x) (fun x => x)
       (Response true (JsonParsed (JObj [(str "url", JStr u)]))) btn fi ta x) ta)
    = match trim (el_value (heap x ta)) with
      | [] => u
      | _ :: _ => trim (el_value (heap x ta)) ++ [10] ++ u
      end).
  { intros x first rest u Hx.
    rewrite (upload_run_response _ _ _ _ _ _ _ _ first rest Hx).
    unfold resume_json. cbn [negb get_property own_property].
    rewrite bool_decide_eq_true_2 by done.
    unfold append_url. cbn [urlsTextarea].
    rewrite upload_at_body_uninterrupted.
    destruct (trim (el_value (heap x ta)));
      cbn [str_truthy value_assigned to_string json_to_string fmap option_fmap
           option_map];
      rewrite upload_finally_other by done; by rewrite heap_update_eq. }
  assert (H1 : el_value (heap w1 ta) = u1).
  { subst w1. rewrite (Hrun w first1 rest1 u1 Hf1). by rewrite Hblank. }
  split; [done|]. subst w2.
  rewrite (Hrun again first2 rest2 u2 Hf2), Hagain, H1.
  rewrite trim_clean by done. by destruct u1.
Qed.

End UploadLines.

(** * Concrete runs for the further properties *)

Lemma startup_outcome_witness :
  snd (onDOMContentLoaded page_without_toggle)
    = Some (NullPropertyTypeError (str "addEventListener"))
  ∧ snd (onDOMContentLoaded (sample_page None false)) = None.
Proof.
  split.
  - apply (startup_outcome page_without_toggle). reflexivity.
  - apply (startup_outcome (sample_page None false)). discriminate.
Defined.

Lemma startup_no_duplicate_listener_witness :
  NoDup (listeners (loaded (sample_page None false))).
Proof.
  apply (startup_no_duplicate_listener (sample_page None false)).
  - reflexivity.
  - apply (bool_decide_unpack _). vm_compute. exact I.
Defined.

Lemma upload_binder_all_or_nothing_witness :
  Forall (fun r => is_upload_handler (snd r) = false)
    (listeners (loaded page_without_textarea))
  ∧ (8%nat, Click, UploadBtnClick 9%nat) ∈ listeners (loaded (sample_page None false)).
Proof.
  split.
  - apply (proj1 (upload_binder_all_or_nothing page_without_textarea eq_refl)).
    right; right. reflexivity.
  - apply (proj2 (upload_binder_all_or_nothing (sample_page None false) eq_refl)
             0%nat 8%nat 9%nat 10%nat); reflexivity.
Defined.



Lemma change_without_form_witness :
  let w := update 1%nat without_form (loaded (sample_page None false)) in
  dispatchEvent (fun _ => true) (change_on 1%nat) w
  = (log (Uncaught (NullPropertyTypeError (str "submit"))) w, change_on 1%nat, []).
Proof.
  apply (change_without_form (fun _ => true) (sample_page None false)
           (update 1%nat without_form (loaded (sample_page None false)))
           (str "gallery-width") 1%nat);
    [reflexivity|reflexivity| |reflexivity|reflexivity].
  apply elem_of_cons. left. reflexivity.
Defined.


Lemma toggle_once_witness :
  let w := loaded (sample_page None false) in
  let w' := fst (fst (dispatchEvent (fun _ => true) (click_on 0%nat) w)) in
  light_theme ∈ body_classList w'
  ∧ localStorage w' !! str "theme" = Some (str "light").
Proof.
  destruct (toggle_once (fun _ => true) (sample_page None false)
              (loaded (sample_page None false)) 0%nat eq_refl eq_refl eq_refl)
    as (Hc & _ & Hs & _).
  cbv zeta. assert (Hin : light_theme ∈ body_classList
    (fst (fst (dispatchEvent (fun _ => true) (click_on 0%nat)
                 (loaded (sample_page None false)))))).
  { apply Hc. apply (bool_decide_unpack _). vm_compute. exact I. }
  split; [exact Hin|]. rewrite Hs. by rewrite bool_decide_eq_true_2.
Defined.

Lemma toggle_many_witness :
  let w := loaded (sample_page None false) in
  body_classList (click_times (fun _ => true) 4 0%nat w) = body_classList w.
Proof.
  destruct (toggle_many (fun _ => true) (sample_page None false)
              (loaded (sample_page None false)) 0%nat 4%nat eq_refl eq_refl eq_refl)
    as [Hc _].
  cbv zeta. rewrite Hc. reflexivity.
Defined.

Lemma toggle_then_reload_witness :
  let w := loaded (sample_page None false) in
  let w' := fst (fst (dispatchEvent (fun _ => true) (click_on 0%nat) w)) in
  light_theme ∈ body_classList (loaded (sample_page (Some (str "light")) false))
  ↔ light_theme ∈ body_classList w'.
Proof.
  apply (toggle_then_reload (fun _ => true) (sample_page None false)
           (loaded (sample_page None false)) 0%nat
           (sample_page (Some (str "light")) false) eq_refl eq_refl eq_refl).
  - apply map_eq. intros key. vm_compute. reflexivity.
  - apply (bool_decide_unpack _). vm_compute. exact I.
Defined.


Lemma upload_network_error_witness :
  trace (upload_run (E := sample_engine) (fun x => x) (fun x => x)
           (NetworkError (HostError (str "Failed to fetch")))
           8%nat 9%nat 10%nat (loaded (sample_page None false)))
  = [Fetch (str "/api/upload") (str "POST") [(str "file", sample_file)];
     ConsoleError (str "Upload error:") (HostError (str "Failed to fetch"));
     Alert (str "Failed to upload image: Failed to fetch")].
Proof.
  apply (upload_network_error (E := sample_engine) (fun x => x) (fun x => x)
           8%nat 9%nat 10%nat (loaded (sample_page None false)) sample_file []
           (HostError (str "Failed to fetch")) eq_refl).
Defined.


Lemma upload_success_without_url_witness :
  el_value
    (heap (upload_run (E := sample_engine) (fun x => x) (fun x => x)
             (Response true (JsonParsed (JObj [(str "path", JStr (str "/y.png"))])))
             8%nat 9%nat 10%nat (loaded (sample_page None false)))
       10%nat)
  = str "undefined".
Proof.
  apply (upload_success_without_url (E := sample_engine) (sample_page None false)
           (fun x => x) (fun x => x) 8%nat 9%nat 10%nat
           (loaded (sample_page None false)) sample_file []
           [(str "path", JStr (str "/y.png"))]);
    reflexivity.
Defined.

Lemma upload_null_body_witness :
  el_value
    (heap (upload_run (E := sample_engine) (fun x => x) (fun x => x)
             (Response true (JsonParsed JNull))
             8%nat 9%nat 10%nat (loaded (sample_page None false)))
       10%nat)
  = [].
Proof.
  destruct (upload_null_body (E := sample_engine) (sample_page None false)
              (fun x => x) (fun x => x) 8%nat 9%nat 10%nat
              (loaded (sample_page None false)) sample_file [] true
              eq_refl eq_refl eq_refl) as [_ Hv].
  exact Hv.
Defined.


Lemma upload_keeps_textarea_trimmed_witness :
  let content :=
    el_value
      (heap (upload_run (E := sample_engine) (fun x => x) (fun x => x)
               (Response true (JsonParsed (JObj [(str "url", JStr (str "https://x/y.png"))])))
               8%nat 9%nat 10%nat
               (update 10%nat (set_value (str "  a  ")) (loaded (sample_page None false))))
         10%nat) in
  content ≠ [] ∧ trim content = content.
Proof.
  apply (upload_keeps_textarea_trimmed (E := sample_engine) (sample_page None false)
           (fun x => x) (fun x => x) 8%nat 9%nat 10%nat
           (update 10%nat (set_value (str "  a  ")) (loaded (sample_page None false)))
           sample_file [] [(str "url", JStr (str "https://x/y.png"))]
           (str "https://x/y.png"));
    try reflexivity.
  discriminate.
Defined.

Lemma upload_twice_two_lines_witness :
  let w := loaded (sample_page None false) in
  let w1 := upload_run (E := sample_engine) (fun x => x) (fun x => x)
              (Response true (JsonParsed (JObj [(str "url", JStr (str "https://x/1.png"))])))
              8%nat 9%nat 10%nat w in
  let again := update 9%nat (with_files [sample_file]) w1 in
  let w2 := upload_run (E := sample_engine) (fun x => x) (fun x => x)
              (Response true (JsonParsed (JObj [(str "url", JStr (str "https://x/2.png"))])))
              8%nat 9%nat 10%nat again in
  el_value (heap w2 10%nat) = str "https://x/1.png" ++ [10] ++ str "https://x/2.png".
Proof.
  cbv zeta.
  refine (proj2 (upload_twice_two_lines (E := sample_engine) (sample_page None false)
           8%nat 9%nat 10%nat (loaded (sample_page None false))
           (update 9%nat (with_files [sample_file])
              (upload_run (E := sample_engine) (fun x => x) (fun x => x)
                 (Response true (JsonParsed (JObj [(str "url", JStr (str "https://x/1.png"))])))
                 8%nat 9%nat 10%nat (loaded (sample_page None false))))
           sample_file sample_file [] [] (str "https://x/1.png") (str "https://x/2.png")
           eq_refl eq_refl eq_refl eq_refl _ eq_refl eq_refl eq_refl eq_refl)).
  discriminate.
Defined.
